(** * opensphere-build-index: index generation (buildindex.js)

    A shallow embedding of [buildindex.js].  JavaScript strings are lists of
    characters, the file system is a finite map from paths to contents, and
    the synchronous builders run in a small state-and-outcome monad whose
    outcomes are a normal return, a thrown [Error] and [process.exit]. *)

From Stdlib Require Import Ascii String DecimalString Lia.
From stdpp Require Import base option list gmap strings.

Local Open Scope list_scope.

(** ** JavaScript string primitives *)

Module JS.

Abbreviation str := (list ascii).

(** A string literal of the source. *)
Definition lit (s : string) : str := list_ascii_of_string s.
Arguments lit : simpl never.

Definition dquote : ascii := ascii_of_nat 34.
Definition newline : ascii := ascii_of_nat 10.
Definition dollar : ascii := ascii_of_nat 36.
Definition amp : ascii := ascii_of_nat 38.
Definition backtick : ascii := ascii_of_nat 96.
Definition squote : ascii := ascii_of_nat 39.

(** A string is truthy exactly when it is not empty. *)
Definition truthy (s : str) : bool :=
  match s with [] => false | _ :: _ => true end.

(** [a || b] on optional string fields ([None] is [undefined]). *)
Definition or_else (a : option str) (b : str) : str :=
  match a with
  | Some s => if truthy s then s else b
  | None => b
  end.

Fixpoint starts_with (p s : str) : bool :=
  match p, s with
  | [], _ => true
  | _ :: _, [] => false
  | a :: p', b :: s' => if decide (a = b) then starts_with p' s' else false
  end.

(** [find_first p s]: the text before and after the first occurrence of
    [p] in [s]. *)
Fixpoint find_first (p s : str) : option (str * str) :=
  if starts_with p s then Some ([], drop (length p) s)
  else match s with
       | [] => None
       | c :: s' =>
           match find_first p s' with
           | Some (b, a) => Some (c :: b, a)
           | None => None
           end
       end.

(** [s.indexOf(p)]; [None] stands for -1. *)
Definition indexOf (p s : str) : option nat :=
  match find_first p s with
  | Some (b, _) => Some (length b)
  | None => None
  end.

(** [s.indexOf(p) > -1] *)
Definition includes (p s : str) : bool :=
  match indexOf p s with Some _ => true | None => false end.

(** ECMAScript GetSubstitution for a match without capture groups: in the
    replacement text [$$] is a dollar sign, [$&] the matched text, [$`] the
    text before the match and [$'] the text after it; everything else is
    copied. *)
Fixpoint getSubstitution (matched before after repl : str) : str :=
  match repl with
  | [] => []
  | c :: r =>
      if decide (c = dollar) then
        match r with
        | d :: r' =>
            if decide (d = dollar) then
              dollar :: getSubstitution matched before after r'
            else if decide (d = amp) then
              matched ++ getSubstitution matched before after r'
            else if decide (d = backtick) then
              before ++ getSubstitution matched before after r'
            else if decide (d = squote) then
              after ++ getSubstitution matched before after r'
            else c :: getSubstitution matched before after r
        | [] => [c]
        end
      else c :: getSubstitution matched before after r
  end.

(** [s.replace(p, r)] with a string pattern: only the first occurrence. *)
Definition replace (p r s : str) : str :=
  match find_first p s with
  | None => s
  | Some (b, a) => b ++ getSubstitution p b a r ++ a
  end.

(** [s.replace(/p/g, r)] for a regular expression that is the plain,
    non-empty text [p]: one scan from left to right over [s], matches do
    not overlap.  [before] is the part of the subject already passed and
    [skip] the number of characters of the current match still to pass. *)
Fixpoint replace_all_from (p r before : str) (skip : nat) (s : str) : str :=
  match s with
  | [] => []
  | c :: s' =>
      match skip with
      | S k => replace_all_from p r (before ++ [c]) k s'
      | 0 =>
          if starts_with p s then
            getSubstitution p before (drop (length p) s) r
              ++ replace_all_from p r (before ++ [c]) (length p - 1) s'
          else c :: replace_all_from p r (before ++ [c]) 0 s'
      end
  end.

Definition replace_all (p r s : str) : str := replace_all_from p r [] 0 s.

(** [s.split('\n')] *)
Fixpoint split_lines (s : str) : list str :=
  match s with
  | [] => [[]]
  | c :: s' =>
      if decide (c = newline) then [] :: split_lines s'
      else match split_lines s' with
           | l :: ls => (c :: l) :: ls
           | [] => [[c]]
           end
  end.

(** [xs.join('\n')] *)
Fixpoint join_lines (xs : list str) : str :=
  match xs with
  | [] => []
  | [x] => x
  | x :: rest => x ++ newline :: join_lines rest
  end.

(** Decimal rendering of an array length inside a message. *)
Definition of_nat (n : nat) : str :=
  lit (NilEmpty.string_of_uint (Nat.to_uint n)).

(** [/-template.html$/]: the dot matches any character except a line
    terminator, the dollar sign anchors at the end of the subject. *)
Definition template_suffix (s : str) : bool :=
  match s with
  | d :: rest =>
      bool_decide (rest = lit "html") && negb (bool_decide (d = newline))
        && negb (bool_decide (d = ascii_of_nat 13))
  | [] => false
  end.

(** [s.replace(/-template.html$/, '.html')] *)
Fixpoint strip_template_suffix (s : str) : str :=
  if starts_with (lit "-template") s
     && template_suffix (drop (length (lit "-template")) s)
  then lit ".html"
  else match s with
       | [] => []
       | c :: s' => c :: strip_template_suffix s'
       end.

End JS.

Import JS.

(** ** The host: Node's [path] module, the [slash] package and module
    resolution

    These are not part of the repository; the builders are written against
    this interface. *)

Class Host := {
  path_sep : str;
  path_join : list str -> str;
  path_isAbsolute : str -> bool;
  path_relative : str -> str -> str;
  slash : str -> str;
  (** [process.cwd()] *)
  cwd : str;
  (** [path.dirname(require.resolve('google-closure-library/package.json'))];
      the package is taken to be installed, so that resolving it succeeds *)
  closureLibPath : str;
  (** [slash('')] is the empty string. *)
  slash_empty : slash [] = []
}.

(** ** Options *)

Record TemplateOptions := {
  id : str;
  file : option str;
  skip : bool
}.

Record Options := {
  templates : option (list TemplateOptions);
  basePath : option str;
  appPath : option str;
  distPath : str;
  appVersion : option str;
  packageVersion : option str;
  overrideVersion : option str;
  debugCss : option str;
  compiledCss : option str;
  compiledJs : option str
}.

(** ** The world: files, directories and the console *)

Inductive Error :=
  | Err (message : str)        (* [new Error(message)] *)
  | ReadError (path : str).    (* thrown by [fs.readFileSync] *)

Inductive LogEntry :=
  | Log (line : str)           (* [console.log] *)
  | LogError (line : str)      (* [console.error] of a string *)
  | LogErrorObj (e : Error).   (* [console.error] of a caught error *)

(** A file is known by the text of its path: two paths are two files. *)
Record World := {
  files : gmap str str;
  dirs : gset str;
  console : list LogEntry
}.

Inductive Outcome (A : Type) :=
  | Ret (a : A)
  | Throw (e : Error)
  | Exit (code : nat).
Arguments Ret {A} a.
Arguments Throw {A} e.
Arguments Exit {A} code.

Definition M (A : Type) : Type := World -> Outcome A * World.

Definition ret {A} (a : A) : M A := fun w => (Ret a, w).

Definition bind {A B} (m : M A) (k : A -> M B) : M B :=
  fun w =>
    match m w with
    | (Ret a, w') => k a w'
    | (Throw e, w') => (Throw e, w')
    | (Exit c, w') => (Exit c, w')
    end.

#[export] Instance M_ret : MRet M := @ret.
#[export] Instance M_bind : MBind M := fun A B k m => bind m k.

Definition throw {A} (e : Error) : M A := fun w => (Throw e, w).

(** [process.exit(code)] *)
Definition process_exit {A} (code : nat) : M A := fun w => (Exit code, w).

(** [try { m } catch (e) { h e }]: [process.exit] is not caught. *)
Definition try_catch {A} (m : M A) (h : Error -> M A) : M A :=
  fun w =>
    match m w with
    | (Throw e, w') => h e w'
    | r => r
    end.

Definition emit (e : LogEntry) : M unit :=
  fun w => (Ret tt, {| files := files w; dirs := dirs w;
                       console := console w ++ [e] |}).

Definition console_log (s : str) : M unit := emit (Log s).
Definition console_error (s : str) : M unit := emit (LogError s).
Definition console_error_obj (e : Error) : M unit := emit (LogErrorObj e).

(** [fs.existsSync] *)
Definition existsSync (p : str) : M bool :=
  fun w => (Ret (bool_decide (is_Some (files w !! p)) || bool_decide (p ∈ dirs w)), w).

(** [fs.readFileSync(p, 'utf8')]; the content of a file is taken to be
    well-formed text, which decoding leaves as it is. *)
Definition readFileSync (p : str) : M str :=
  fun w => match files w !! p with
           | Some c => (Ret c, w)
           | None => (Throw (ReadError p), w)
           end.

(** [fs.writeFileSync(p, c)]; the directory of [p] is taken to exist. *)
Definition writeFileSync (p c : str) : M unit :=
  fun w => (Ret tt, {| files := <[p := c]> (files w); dirs := dirs w;
                       console := console w |}).

(** [mkdirp.sync(p)]; of the directories it makes only [p] is recorded. *)
Definition mkdirp_sync (p : str) : M unit :=
  fun w => (Ret tt, {| files := files w; dirs := dirs w ∪ {[p]};
                       console := console w |}).

(** ** The builders of [buildindex.js] *)

Section Builders.
Context `{Host}.

Definition VENDOR_CSS : str := lit "<!--VENDOR_CSS-->".
Definition VENDOR_JS : str := lit "<!--VENDOR_JS-->".
Definition APP_CSS : str := lit "<!--APP_CSS-->".
Definition APP_JS : str := lit "<!--APP_JS-->".
Definition tok_version : str := lit "@version@".
Definition tok_appVersion : str := lit "@appVersion@".
Definition tok_packageVersion : str := lit "@packageVersion@".

Definition createScriptTag (filePath : str) : str :=
  if truthy filePath
  then lit "<script src=" ++ [dquote] ++ slash filePath ++ [dquote] ++ lit "></script>"
  else [].

Definition createLinkTag (filePath : str) : str :=
  if truthy filePath
  then lit "<link rel=" ++ [dquote] ++ lit "stylesheet" ++ [dquote]
         ++ lit " href=" ++ [dquote] ++ slash filePath ++ [dquote] ++ lit ">"
  else [].

(** An option that was left out is [undefined], which is falsy. *)
Definition tag_of (mk : str -> str) (p : option str) : str :=
  match p with Some f => mk f | None => [] end.

Definition readFile (filePath : str) : M str := readFileSync filePath.

Definition addAppCss (cssPath : option str) (template : str) : str :=
  replace APP_CSS (tag_of createLinkTag cssPath) template.

Definition addAppScript (scriptPath : option str) (template : str) : str :=
  replace APP_JS (tag_of createScriptTag scriptPath) template.

Definition addVendorCss (template inputFile : str) : M str :=
  files ← try_catch
    (fileContent ← readFileSync inputFile; mret (split_lines fileContent))
    (fun e =>
       console_error (lit "ERROR: failed reading vendor styles from " ++ inputFile);;
       console_error_obj e;;
       process_exit 1);
  if bool_decide (0 < length files) then
    console_log (lit "Adding " ++ of_nat (length files)
                   ++ lit " vendor styles from " ++ inputFile);;
    mret (replace VENDOR_CSS (join_lines (map createLinkTag files)) template)
  else
    mret (replace VENDOR_CSS [] template).

Definition getVendorScripts (inputFile : str) : M (list str) :=
  try_catch
    (fileContent ← readFileSync inputFile; mret (split_lines fileContent))
    (fun e =>
       console_error (lit "ERROR: failed reading vendor scripts from " ++ inputFile);;
       console_error_obj e;;
       process_exit 1).

Definition addVendorScripts (template inputFile : str) : M str :=
  files ← getVendorScripts inputFile;
  if bool_decide (0 < length files) then
    console_log (lit "Adding " ++ of_nat (length files)
                   ++ lit " vendor scripts from " ++ inputFile);;
    mret (replace VENDOR_JS (join_lines (map createScriptTag files)) template)
  else
    mret (replace VENDOR_JS [] template).

Definition templatePath_of (templateOptions : TemplateOptions) (basePath : str) : str :=
  let templateFile := or_else (file templateOptions)
                              (id templateOptions ++ lit "-template.html") in
  if negb (path_isAbsolute templateFile)
  then path_join [basePath; templateFile] else templateFile.

(** The three values of the compiled build: [version], [packageVersion]
    and [slash(versionPath)]. *)
Definition compiledVersion (options : Options) : str :=
  or_else (appVersion options) [].

Definition compiledPackageVersion (options : Options) : str :=
  or_else (overrideVersion options) (or_else (packageVersion options) []).

Definition compiledVersionPath (options : Options) : str :=
  let version := compiledVersion options in
  slash (if truthy version then version ++ path_sep else []).

(** The version substitutions of the compiled build. *)
Definition compiledVersions (options : Options) (template : str) : str :=
  let template := replace_all tok_appVersion (compiledVersion options) template in
  let template :=
    replace_all tok_packageVersion (compiledPackageVersion options) template in
  replace_all tok_version (compiledVersionPath options) template.

Definition buildCompiledIndex (options : Options) (templateOptions : TemplateOptions)
    (basePath appPath : str) : M unit :=
  let id := id templateOptions in
  let templatePath := templatePath_of templateOptions basePath in
  let file := strip_template_suffix templatePath in
  if skip templateOptions then mret tt else
  ex ← existsSync templatePath;
  if negb ex then throw (Err (lit "Missing template file " ++ templatePath)) else
  console_log (lit "Creating compiled index from " ++ file ++ lit "...");;
  template ← readFile templatePath;
  let template := compiledVersions options template in
  let vendorCssPath := path_join [appPath; lit ".build"; lit "resources-css-dist-" ++ id] in
  let vendorJsPath := path_join [appPath; lit ".build"; lit "resources-js-dist-" ++ id] in
  template ← addVendorCss template vendorCssPath;
  template ← addVendorScripts template vendorJsPath;
  let template := addAppCss (compiledCss options) template in
  let template := addAppScript (compiledJs options) template in
  let indexPath := path_join [distPath options; id ++ lit ".html"] in
  console_log (lit "Writing compiled index to " ++ indexPath);;
  console_log [];;
  ex ← existsSync (distPath options);
  (if negb ex then mkdirp_sync (distPath options) else mret tt);;
  writeFileSync indexPath template.

Definition getAppLoaderPath (basePath : str) : str :=
  path_join [basePath; lit ".build"; lit "app-loader.js"].

(** The version substitutions of the debug build. *)
Definition debugVersions (template : str) : str :=
  let template := replace_all tok_version [] template in
  let template := replace_all tok_appVersion (lit "dev") template in
  replace_all tok_packageVersion (lit "dev") template.

(** The four bootstrap scripts of the debug build. *)
Definition appScripts (basePath appPath : str) : list str :=
  let closureSrcPath := path_join [closureLibPath; lit "closure"; lit "goog"] in
  let appLoaderPath := getAppLoaderPath appPath in
  map createScriptTag
    [ path_relative basePath (path_join [appPath; lit ".build"; lit "gcc-defines-debug.js"]);
      path_relative basePath (path_join [closureSrcPath; lit "base.js"]);
      path_relative basePath (path_join [closureSrcPath; lit "deps.js"]);
      path_relative basePath appLoaderPath ].

(** The two guarded script insertions of the debug build. *)
Definition debugVendorJs (id appPath template : str) : M str :=
  if includes VENDOR_JS template then
    let vendorJsPath := path_join [appPath; lit ".build"; lit "resources-js-debug-" ++ id] in
    files ← getVendorScripts vendorJsPath;
    let vendorScripts := map createScriptTag files in
    mret (replace VENDOR_JS (join_lines vendorScripts) template)
  else mret template.

Definition debugAppJs (basePath appPath template : str) : str :=
  if includes APP_JS template
  then replace APP_JS (join_lines (appScripts basePath appPath)) template
  else template.

Definition buildDebugIndex (options : Options) (templateOptions : TemplateOptions)
    (basePath appPath : str) : M unit :=
  let id := id templateOptions in
  let templatePath := templatePath_of templateOptions basePath in
  let file := strip_template_suffix templatePath in
  if skip templateOptions then mret tt else
  ex ← existsSync templatePath;
  if negb ex then throw (Err (lit "Missing template file " ++ templatePath)) else
  console_log (lit "Creating debug index from " ++ file ++ lit "...");;
  template ← readFile templatePath;
  let template := debugVersions template in
  let vendorCssPath := path_join [appPath; lit ".build"; lit "resources-css-debug-" ++ id] in
  template ← addVendorCss template vendorCssPath;
  let template := addAppCss (debugCss options) template in
  template ← debugVendorJs id appPath template;
  let template := debugAppJs basePath appPath template in
  let indexPath := path_join [basePath; id ++ lit ".html"] in
  console_log (lit "Writing debug index to " ++ indexPath);;
  console_log [];;
  writeFileSync indexPath template.

End Builders.

(** ** The orchestrator: [buildIndex]

    [closureHelper.writeDebugLoader] is an external collaborator that
    returns a promise; [loader i] is how the promise of the call made for
    the template at position [i] settles.  Loading [.build/gcc-args] is
    taken to succeed, and the file that the collaborator writes
    ([.build/app-loader.js]) is its own: the world does not record it. *)

Inductive LoaderResult :=
  | LoaderOk
  | LoaderFail (reason : str).

Inductive Settled :=
  | Fulfilled
  | Rejected (e : Error).

Inductive Event :=
  | LoaderStarted (i : nat)                       (* [buildDebugLoader] called *)
  | DebugBuild (i : nat) (r : Outcome unit)       (* [buildDebugIndex] ran *)
  | CompiledBuild (i : nat) (r : Outcome unit).   (* [buildCompiledIndex] ran *)

Record State := {
  world : World;
  trace : list Event;
  exited : option nat
}.

Record Run := {
  (** how the promise returned by [buildIndex] settles, if the process
      lives to see it ([exited] of the final state tells) *)
  promise : Settled;
  final : State
}.

Section Orchestrator.
Context `{Host}.
Variable loader : nat -> LoaderResult.

Definition needsLoader (template : TemplateOptions) : bool :=
  bool_decide (id template = lit "index") && negb (skip template).

(** [buildDebugLoader(appPath).then(undefined, reason => { throw ... })] or
    [Promise.resolve()]: the promise the mapper returns for one template. *)
Definition mapperPromise (i : nat) (template : TemplateOptions) : Settled :=
  if needsLoader template then
    match loader i with
    | LoaderOk => Fulfilled
    | LoaderFail reason =>
        Rejected (Err (lit "Failed writing debug loader: " ++ reason))
    end
  else Fulfilled.

(** The synchronous part of [Promise.map]: the mapper is called on every
    template in list order; calls of [buildDebugLoader] happen here. *)
Fixpoint mapperCalls (i : nat) (ts : list TemplateOptions) : list Event :=
  match ts with
  | [] => []
  | t :: rest =>
      (if needsLoader t then [LoaderStarted i] else []) ++ mapperCalls (S i) rest
  end.

Definition record (e : Event) (w : World) (x : option nat) (st : State) : State :=
  {| world := w; trace := trace st ++ [e]; exited := x |}.

Definition exit_of (o : Outcome unit) : option nat :=
  match o with Exit c => Some c | _ => None end.

(** The two [then] callbacks registered on the promise of template [i]:
    they run, in this order, once the promise is fulfilled, and not at all
    when it is rejected.  A throw inside a callback rejects only the
    promise that [then] returned, which nobody holds. *)
Definition callbacks (options : Options) (debugOnly : bool) (basePath appPath : str)
    (i : nat) (st : State) : State :=
  match exited st, default [] (templates options) !! i with
  | None, Some template =>
      match mapperPromise i template with
      | Rejected _ => st
      | Fulfilled =>
          let (o, w) := buildDebugIndex options template basePath appPath (world st) in
          let st := record (DebugBuild i o) w (exit_of o) st in
          match exited st with
          | Some _ => st
          | None =>
              if debugOnly then st else
              let (o, w) := buildCompiledIndex options template basePath appPath (world st) in
              record (CompiledBuild i o) w (exit_of o) st
          end
      end
  | _, _ => st
  end.

(** [Promise.map] rejects with the first rejection among the mapper's
    promises, and is fulfilled when there is none. *)
Fixpoint firstRejection (ts : list TemplateOptions) (sched : list nat) : Settled :=
  match sched with
  | [] => Fulfilled
  | i :: rest =>
      match ts !! i with
      | Some t =>
          match mapperPromise i t with
          | Rejected e => Rejected e
          | Fulfilled => firstRejection ts rest
          end
      | None => firstRejection ts rest
      end
  end.

(** [buildIndex(options, debugOnly)] in a world [w]; [sched] lists the
    positions of the templates in the order in which their promises settle
    (any order of the positions: the loader decides when its promises
    settle). *)
Definition buildIndex (options : Options) (debugOnly : bool) (sched : list nat)
    (w : World) : Run :=
  match templates options with
  | Some ts =>
      let basePath := or_else (basePath options) cwd in
      let appPath := or_else (appPath options) basePath in
      let st := {| world := w; trace := mapperCalls 0 ts; exited := None |} in
      {| promise := firstRejection ts sched;
         final := foldl (fun st i => callbacks options debugOnly basePath appPath i st)
                        st sched |}
  | None =>
      {| promise := Fulfilled;
         final := {| world := w; trace := []; exited := None |} |}
  end.

End Orchestrator.

(** ** Options from a file: [buildIndexFromFile]

    [require(file)] is the host's: it throws, or it gives the value of the
    module, which is an options object or something falsy ([None]). *)

Inductive FromFile :=
  | Loaded (r : Run)                       (* [buildIndex] ran, or nothing had to *)
  | LoadThrew (e : Error) (w : World)      (* an error left the function *)
  | LoadFailed (code : nat) (w : World).   (* [process.exit(code)] *)

Section FromFile.
Context `{Host}.
Variable loader : nat -> LoaderResult.
Variable require : str -> Error + option Options.

Definition requireSync (file : str) : M (option Options) :=
  fun w => match require file with
           | inl e => (Throw e, w)
           | inr index => (Ret index, w)
           end.

(** The first half of [buildIndexFromFile]: the options, once loaded. *)
Definition loadIndex (file : str) : M (option Options) :=
  console_log (lit "Loading index options from " ++ file);;
  try_catch (requireSync file)
    (fun e =>
       console_error (lit "ERROR: failed loading index file " ++ file);;
       console_error_obj e;;
       process_exit 1).

Definition buildIndexFromFile (file : str) (debugOnly : bool) (sched : list nat)
    (w : World) : FromFile :=
  match loadIndex file w with
  | (Ret (Some index), w') => Loaded (buildIndex loader index debugOnly sched w')
  | (Ret None, w') =>
      Loaded {| promise := Fulfilled;
                final := {| world := w'; trace := []; exited := None |} |}
  | (Throw e, w') => LoadThrew e w'
  | (Exit code, w') => LoadFailed code w'
  end.

End FromFile.

(** ** Reference notions used in the statements *)

(** [join_with sep segs]: the segments with [sep] between neighbours. *)
Fixpoint join_with (sep : str) (segs : list str) : str :=
  match segs with
  | [] => []
  | [x] => x
  | x :: rest => x ++ sep ++ join_with sep rest
  end.

(** The pieces of [s] between the occurrences of [p] that one scan from the
    left finds. *)
Fixpoint split_fuel (n : nat) (p s : str) : list str :=
  match n with
  | 0 => [s]
  | S n' =>
      match find_first p s with
      | None => [s]
      | Some (b, a) => b :: split_fuel n' p a
      end
  end.

Definition split_on (p s : str) : list str := split_fuel (length s) p s.

(** The pieces that [split_on] cuts: [Scan p s segs]. *)
Inductive Scan (p : str) : str -> list str -> Prop :=
  | Scan_last (s : str) : find_first p s = None -> Scan p s [s]
  | Scan_cons (s b a : str) (segs : list str) :
      find_first p s = Some (b, a) -> Scan p a segs -> Scan p s (b :: segs).

(** Replacing what a scan finds by the literal text [r]. *)
Definition subst_all (p r s : str) : str := join_with r (split_on p s).

(** Replacing the first occurrence only by the literal text [r]. *)
Definition subst_first (p r s : str) : str :=
  match find_first p s with
  | Some (b, a) => b ++ r ++ a
  | None => s
  end.

(** The text has no replacement pattern in it. *)
Definition plain (r : str) : Prop := dollar ∉ r.

(** [q] occurs in [s]. *)
Definition occurs (q s : str) : Prop := exists b a, s = b ++ q ++ a.

(** [r] shares no character with the two ends of [q] and is not a part of
    [q]: an occurrence of [q] cannot touch a copy of [r]. *)
Record apart (q r : str) : Prop := {
  apart_head : forall c q', q = c :: q' -> c ∉ r;
  apart_last : forall c q', q = q' ++ [c] -> c ∉ r;
  apart_inner : ~ occurs r q;
  apart_q : q <> [];
  apart_r : r <> []
}.



(** The world after the two [console.error] calls of a failed read of the
    manifest [f]; [msg] is the text before the path. *)
Definition after_read_failure (msg f : str) (w : World) : World :=
  {| files := files w; dirs := dirs w;
     console := console w ++ [LogError (msg ++ f); LogErrorObj (ReadError f)] |}.

(** The world after the [console.log] that reports [n] entries. *)
Definition after_read (n : nat) (what f : str) (w : World) : World :=
  {| files := files w; dirs := dirs w;
     console := console w ++ [Log (lit "Adding " ++ of_nat n ++ what ++ f)] |}.

(** The four manifests of a template, and the debug template at the point
    where the vendor scripts are about to go in ([c] is the template text,
    [m] the content of the debug manifest of the styles). *)
Section Paths.
Context `{Host}.

Definition distCss (t : TemplateOptions) (app : str) : str :=
  path_join [app; lit ".build"; lit "resources-css-dist-" ++ id t].
Definition distJs (t : TemplateOptions) (app : str) : str :=
  path_join [app; lit ".build"; lit "resources-js-dist-" ++ id t].
Definition debugCssManifest (t : TemplateOptions) (app : str) : str :=
  path_join [app; lit ".build"; lit "resources-css-debug-" ++ id t].
Definition debugJsManifest (t : TemplateOptions) (app : str) : str :=
  path_join [app; lit ".build"; lit "resources-js-debug-" ++ id t].

Definition debugBeforeJs (options : Options) (c m : str) : str :=
  addAppCss (debugCss options)
    (replace VENDOR_CSS (join_lines (map createLinkTag (split_lines m)))
       (debugVersions c)).

End Paths.

(** [e] is a build (debug or compiled) of the template at position [i]. *)
Definition isBuildOf (i : nat) (e : Event) : bool :=
  match e with
  | DebugBuild j _ | CompiledBuild j _ => bool_decide (i = j)
  | LoaderStarted _ => false
  end.

(** The number of loader generations in a trace. *)
Definition isLoaderStart (e : Event) : bool :=
  match e with LoaderStarted _ => true | _ => false end.

Definition loaderStarts (tr : list Event) : nat :=
  length (List.filter isLoaderStart tr).

(** A host for the examples: POSIX separators, joining without
    normalisation, and [slash] turning every backslash into a slash. *)
Definition backslash : ascii := ascii_of_nat 92.

Definition exampleHost : Host := {|
  path_sep := lit "/";
  path_join := join_with (lit "/");
  path_isAbsolute := starts_with (lit "/");
  path_relative := fun from to =>
    if starts_with (from ++ lit "/") to then drop (length from + 1) to else to;
  slash := map (fun c => if decide (c = backslash) then ascii_of_nat 47 else c);
  cwd := lit "/work";
  closureLibPath := lit "/work/node_modules/google-closure-library";
  slash_empty := eq_refl
|}.

(** ** Further notions for the builders and the runs *)

(** The world with more entries on the console. *)
Definition logged (l : list LogEntry) (w : World) : World :=
  {| files := files w; dirs := dirs w; console := console w ++ l |}.

(** [fs.existsSync(p)] as a test on a world. *)
Definition exists_in (w : World) (p : str) : bool :=
  bool_decide (is_Some (files w !! p)) || bool_decide (p ∈ dirs w).

(** In a trace, every compiled build comes right after the debug build of
    the same template; [prev] is the template whose debug build came last, if
    nothing came since. *)
Fixpoint compiled_follows_debug (prev : option nat) (tr : list Event) : bool :=
  match tr with
  | [] => true
  | LoaderStarted _ :: rest => compiled_follows_debug None rest
  | DebugBuild i _ :: rest => compiled_follows_debug (Some i) rest
  | CompiledBuild i _ :: rest =>
      bool_decide (prev = Some i) && compiled_follows_debug None rest
  end.

(** [e] is a compiled build. *)
Definition isCompiledBuild (e : Event) : bool :=
  match e with CompiledBuild _ _ => true | _ => false end.

(** ** The tags, written out *)

(** [<link rel="stylesheet" href="...">] around a location. *)
Definition link_tag (href : str) : str :=
  lit "<link rel=" ++ dquote :: lit "stylesheet" ++ dquote :: lit " href="
    ++ dquote :: href ++ dquote :: lit ">".

(** [<script src="..."></script>] around a location. *)
Definition script_tag (src : str) : str :=
  lit "<script src=" ++ dquote :: src ++ dquote :: lit "></script>".

Definition nonempty (s : str) : bool :=
  match s with [] => false | _ :: _ => true end.

Section TagBlock.
Context `{Host}.

(** One entry for each line: the tag around the line, its backslashes
    turned by [slash], and the empty text for an empty line. *)
Definition tag_entries (tag : str -> str) (lines : list str) : list str :=
  map (fun l => match l with [] => [] | _ :: _ => tag (slash l) end) lines.

(** The entries with a line break between neighbours. *)
Definition tag_block (tag : str -> str) (lines : list str) : str :=
  join_with [newline] (tag_entries tag lines).

(** The four bootstrap scripts of the debug index, as locations. *)
Definition bootstrapPaths (basePath appPath : str) : list str :=
  [ path_relative basePath (path_join [appPath; lit ".build"; lit "gcc-defines-debug.js"]);
    path_relative basePath
      (path_join [path_join [closureLibPath; lit "closure"; lit "goog"]; lit "base.js"]);
    path_relative basePath
      (path_join [path_join [closureLibPath; lit "closure"; lit "goog"]; lit "deps.js"]);
    path_relative basePath (path_join [appPath; lit ".build"; lit "app-loader.js"]) ].

End TagBlock.

(** ** Data for the examples *)

Module Ex.

Definition options (version : option str) (ts : list TemplateOptions) : Options := {|
  templates := Some ts;
  basePath := Some (lit "/work");
  appPath := None;
  distPath := lit "/work/dist";
  appVersion := version;
  packageVersion := None;
  overrideVersion := None;
  debugCss := Some (lit "styles/debug.css");
  compiledCss := Some (lit "styles/test.min.css");
  compiledJs := Some (lit "test.min.js")
|}.

Definition template (name : string) (skipped : bool) : TemplateOptions :=
  {| id := lit name; file := None; skip := skipped |}.

(** A world whose only files are the given ones. *)
Definition world (fs : list (str * str)) : World :=
  {| files := list_to_map fs; dirs := ∅; console := [] |}.

(** The template [name] and its four manifests, each empty. *)
Definition files_for (name text : string) : list (str * str) :=
  [ (lit ("/work/" ++ name ++ "-template.html"), lit text);
    (lit ("/work/.build/resources-css-debug-" ++ name), []);
    (lit ("/work/.build/resources-js-debug-" ++ name), []);
    (lit ("/work/.build/resources-css-dist-" ++ name), []);
    (lit ("/work/.build/resources-js-dist-" ++ name), []) ].

Definition world_a (text : string) : World := world (files_for "a" text).

(** The base template and the manifests of the repository's test, with two
    resources per manifest. *)
Definition nl : string := String newline EmptyString.

Definition baseTemplate : string :=
  ("<!DOCTYPE html>" ++ nl ++ "<title>Test Template</title>" ++ nl
   ++ "<!--VENDOR_CSS-->" ++ nl ++ "<!--APP_CSS-->" ++ nl
   ++ "<div id='ng-app' ng-init='version=@appVersion@;versionPath=@version@'>" ++ nl
   ++ "<test-app></test-app>" ++ nl ++ "</div>" ++ nl
   ++ "<!--VENDOR_JS-->" ++ nl ++ "<!--APP_JS-->")%string.

Definition resources (kind mode ext : string) : str :=
  lit ("resources/" ++ kind ++ "/" ++ mode ++ "/index1/0." ++ ext ++ nl
       ++ "resources/" ++ kind ++ "/" ++ mode ++ "/index1/1." ++ ext).

Definition test_world : World :=
  world [ (lit "/work/index1-template.html", lit baseTemplate);
          (lit "/work/.build/resources-css-debug-index1", resources "css" "debug" "css");
          (lit "/work/.build/resources-js-debug-index1", resources "js" "debug" "js");
          (lit "/work/.build/resources-css-dist-index1", resources "css" "dist" "css");
          (lit "/work/.build/resources-js-dist-index1", resources "js" "dist" "js") ].

(** The number of lines of an index that start with [prefix]; [0] when the
    index was not written. *)
Definition lines_with (prefix : string) (index : option str) : nat :=
  match index with
  | Some text => length (List.filter (starts_with (lit prefix)) (split_lines text))
  | None => 0
  end.

End Ex.

(** * Properties *)

(** ** Searching *)

Section Search.
Implicit Types p s b a r : str.

Lemma starts_with_app p a : starts_with p (p ++ a) = true.
Proof. induction p as [|c p IH]; simpl; [done|]. by rewrite decide_True. Qed.

Lemma starts_with_inv p s :
  starts_with p s = true -> s = p ++ drop (length p) s.
Proof.
  revert s; induction p as [|c p IH]; intros [|d s]; simpl; try done.
  destruct (decide (c = d)) as [->|]; [|done].
  intros Hs. f_equal. by apply IH.
Qed.

Lemma starts_with_false p s a : starts_with p s = false -> s <> p ++ a.
Proof. intros Hs ->. by rewrite starts_with_app in Hs. Qed.

Lemma find_first_Some p s b a :
  find_first p s = Some (b, a) -> s = b ++ p ++ a.
Proof.
  revert b; induction s as [|c s IH]; intros b; simpl.
  - destruct (starts_with p []) eqn:E; [|done].
    intros [= <- <-]. by apply starts_with_inv in E.
  - destruct (starts_with p (c :: s)) eqn:E.
    + intros [= <- <-]. by apply starts_with_inv in E.
    + destruct (find_first p s) as [[b0 a0]|] eqn:F; [|done].
      intros [= <- <-]. simpl. f_equal. by apply IH.
Qed.

(** The occurrence that [find_first] reports is the leftmost one. *)
Lemma find_first_leftmost p s b a b' a' :
  find_first p s = Some (b, a) -> s = b' ++ p ++ a' -> length b <= length b'.
Proof.
  revert b b'; induction s as [|c s IH]; intros b b'; simpl.
  - destruct (starts_with p []); [|done]. intros [= <- <-] _. simpl; lia.
  - destruct (starts_with p (c :: s)) eqn:E.
    + intros [= <- <-] _. simpl; lia.
    + destruct (find_first p s) as [[b0 a0]|] eqn:F; [|done].
      intros [= <- <-] Hs. destruct b' as [|d b'].
      * exfalso. by eapply starts_with_false.
      * simpl in Hs. injection Hs as -> ->. simpl.
        specialize (IH b0 b' eq_refl eq_refl). lia.
Qed.

Lemma find_first_None p s b a : find_first p s = None -> s <> b ++ p ++ a.
Proof.
  revert b; induction s as [|c s IH]; intros b; simpl.
  - destruct (starts_with p []) eqn:E; [done|]. intros _ Hs.
    destruct b; simpl in Hs.
    + by eapply starts_with_false.
    + done.
  - destruct (starts_with p (c :: s)) eqn:E; [done|].
    destruct (find_first p s) as [[b0 a0]|] eqn:F; [done|]. intros _ Hs.
    destruct b as [|d b]; simpl in Hs.
    + by eapply starts_with_false.
    + injection Hs as -> Hs. by eapply IH.
Qed.

Lemma find_first_is_Some p b a : is_Some (find_first p (b ++ p ++ a)).
Proof.
  destruct (find_first p (b ++ p ++ a)) eqn:E; [done|].
  exfalso. by eapply find_first_None.
Qed.

Lemma getSubstitution_plain m b a r : plain r -> getSubstitution m b a r = r.
Proof.
  unfold plain. induction r as [|c r IH]; simpl; [done|].
  intros Hr. apply not_elem_of_cons in Hr as [Hc Hr].
  rewrite decide_False by done. f_equal. by apply IH.
Qed.

End Search.

(** ** The scan of a global replacement *)

Section Scan.
Implicit Types p s b a r : str.

Lemma replace_all_from_skip p r q before s :
  replace_all_from p r before (length q) (q ++ s)
  = replace_all_from p r (before ++ q) 0 s.
Proof.
  revert before; induction q as [|c q IH]; intros before; simpl.
  - rewrite app_nil_r. by destruct s.
  - rewrite IH. by rewrite <- app_assoc.
Qed.

Lemma replace_all_from_none p r before s :
  find_first p s = None -> replace_all_from p r before 0 s = s.
Proof.
  revert before; induction s as [|c s IH]; intros before; [done|].
  cbn [find_first replace_all_from].
  destruct (starts_with p (c :: s)); [done|].
  destruct (find_first p s) as [[??]|]; [done|].
  intros _. f_equal. by apply IH.
Qed.

Lemma replace_all_from_some p r before s b a :
  p <> [] ->
  find_first p s = Some (b, a) ->
  replace_all_from p r before 0 s
  = b ++ getSubstitution p (before ++ b) a r
      ++ replace_all_from p r (before ++ b ++ p) 0 a.
Proof.
  intros Hp. revert before b; induction s as [|c s IH]; intros before b.
  - simpl. destruct p; [done|]. done.
  - cbn [find_first replace_all_from].
    destruct (starts_with p (c :: s)) eqn:E.
    + intros [= <- <-]. simpl. rewrite app_nil_r. f_equal.
      apply starts_with_inv in E. destruct p as [|d p]; [done|].
      simpl in E. injection E as <- E. simpl. rewrite Nat.sub_0_r.
      rewrite E at 1. rewrite replace_all_from_skip.
      by rewrite <- app_assoc.
    + destruct (find_first p s) as [[b0 a0]|] eqn:F; [|done].
      intros [= <- <-]. simpl. f_equal.
      rewrite (IH _ b0 eq_refl). by rewrite <- !app_assoc.
Qed.

Lemma split_fuel_scan p n s :
  p <> [] -> length s <= n -> Scan p s (split_fuel n p s).
Proof.
  intros Hp. revert s; induction n as [|n IH]; intros s Hn; simpl.
  - destruct s; [|simpl in Hn; lia]. apply Scan_last.
    simpl. destruct p; [done|]. done.
  - destruct (find_first p s) as [[b a]|] eqn:F.
    + eapply Scan_cons; [done|]. apply IH.
      apply find_first_Some in F. subst s.
      rewrite !length_app in Hn. destruct p; [done|]. simpl in Hn. lia.
    + by apply Scan_last.
Qed.

Lemma split_on_scan p s : p <> [] -> Scan p s (split_on p s).
Proof. intros Hp. by apply split_fuel_scan. Qed.

Lemma scan_nonempty p s segs : Scan p s segs -> segs <> [].
Proof. by destruct 1. Qed.

Lemma scan_join p s segs : Scan p s segs -> join_with p segs = s.
Proof.
  induction 1 as [s F|s b a segs F HS IH]; [done|].
  apply find_first_Some in F. subst s.
  pose proof (scan_nonempty _ _ _ HS).
  destruct segs; [done|]. cbn [join_with] in *. by rewrite IH.
Qed.

Lemma scan_replace p r s segs before :
  p <> [] -> plain r -> Scan p s segs ->
  replace_all_from p r before 0 s = join_with r segs.
Proof.
  intros Hp Hr HS. revert before.
  induction HS as [s F|s b a segs F HS IH]; intros before.
  - by apply replace_all_from_none.
  - rewrite (replace_all_from_some _ _ _ _ _ _ Hp F).
    rewrite getSubstitution_plain by done. rewrite IH.
    pose proof (scan_nonempty _ _ _ HS). by destruct segs.
Qed.

(** No piece contains the pattern. *)
Lemma scan_free p s segs :
  p <> [] -> Scan p s segs -> Forall (fun seg => find_first p seg = None) segs.
Proof.
  intros Hp. induction 1 as [s F|s b a segs F HS IH]; constructor; try done.
  destruct (find_first p b) as [[b1 a1]|] eqn:G; [|done]. exfalso.
  pose proof (find_first_Some _ _ _ _ F) as Hs.
  pose proof (find_first_Some _ _ _ _ G) as Hb.
  assert (s = b1 ++ p ++ (a1 ++ p ++ a)) as Hs'.
  { rewrite Hs, Hb. by rewrite <- !app_assoc. }
  pose proof (find_first_leftmost _ _ _ _ _ _ F Hs') as Hle.
  rewrite Hb, !length_app in Hle. destruct p; [done|simpl in Hle; lia].
Qed.

End Scan.

(** ** Occurrences in a text put together from pieces *)

Section Occurrences.
Implicit Types p q s b a r x z : str.

Lemma occurs_find_first q s : occurs q s <-> find_first q s <> None.
Proof.
  split.
  - intros (b & a & ->) F. by eapply find_first_None.
  - destruct (find_first q s) as [[b a]|] eqn:F; [|done].
    intros _. exists b, a. by apply find_first_Some.
Qed.

Lemma includes_false q s : includes q s = false <-> ~ occurs q s.
Proof.
  rewrite occurs_find_first. unfold includes, indexOf.
  destruct (find_first q s) as [[??]|]; split; try done.
  - intros Hn. by destruct Hn.
  - intros _ Hn. by apply Hn.
Qed.

Lemma occurs_trans q s t : occurs q s -> occurs s t -> occurs q t.
Proof.
  intros (b & a & ->) (b' & a' & ->). exists (b' ++ b), (a ++ a').
  by rewrite <- !app_assoc.
Qed.

Lemma occurs_in_join p seg segs :
  seg ∈ segs -> occurs seg (join_with p segs).
Proof.
  induction segs as [|x [|y rest] IH]; intros Hin.
  - by apply elem_of_nil in Hin.
  - apply list_elem_of_singleton in Hin as ->. exists [], []. by rewrite app_nil_r.
  - apply elem_of_cons in Hin as [->|Hin].
    + exists [], (p ++ join_with p (y :: rest)). done.
    + destruct (IH Hin) as (b & a & E). cbn [join_with] in *. rewrite E.
      exists (x ++ p ++ b), a. by rewrite <- !app_assoc.
Qed.

Lemma occurs_around q r x z :
  apart q r -> occurs q (x ++ r ++ z) -> occurs q x \/ occurs q z.
Proof.
  intros [Hh Hl Hi Hq Hr] (b & a & E).
  apply app_eq_app in E as [l [[Ex E2]|[Eb E2]]].
  - apply app_eq_app in E2 as [l' [[Eq E3]|[El Ea]]].
    + destruct (decide (l' = [])) as [->|Hl'].
      * left. exists b, []. rewrite Ex, Eq. by rewrite !app_nil_r.
      * exfalso. apply app_eq_app in E3 as [m [[Er _]|[El' _]]].
        -- destruct (exists_last Hl') as (l0 & c & ->).
           apply (Hl c (l ++ l0)); [rewrite Eq; by rewrite app_assoc|].
           rewrite Er. set_solver.
        -- apply Hi. exists l, m. rewrite Eq, El'. done.
      + left. exists b, l'. rewrite Ex, El. by rewrite <- ?app_assoc.
  - apply app_eq_app in E2 as [m [[Er E3]|[El Ez]]].
    + destruct m as [|c m].
      * right. exists [], a. simpl in E3. by rewrite <- E3.
      * exfalso. destruct q as [|d q]; [done|].
        simpl in E3. injection E3 as -> E3.
        apply (Hh c q eq_refl). rewrite Er. set_solver.
    + right. exists m, a. done.
Qed.

Lemma occurs_join q r segs :
  apart q r -> occurs q (join_with r segs) -> Exists (occurs q) segs.
Proof.
  intros Hqr. induction segs as [|x [|y rest] IH]; intros Ho.
  - destruct Ho as (b & a & E). destruct (apart_q _ _ Hqr).
    destruct b; [|done]. destruct q; done.
  - by constructor.
  - cbn [join_with] in Ho. apply occurs_around in Ho as [Ho|Ho]; [| |done].
    + by constructor.
    + apply Exists_cons_tl. by apply IH.
Qed.

(** After a global replacement of [p] by plain text [r], a text [q] that
    a copy of [r] cannot touch occurs only where it did before, inside a
    piece that the scan left alone. *)
Lemma occurs_replace_all p q r s :
  p <> [] -> plain r -> apart q r ->
  occurs q (replace_all p r s) ->
  exists seg, seg ∈ split_on p s /\ occurs q seg.
Proof.
  intros Hp Hr Hqr Ho.
  pose proof (split_on_scan p s Hp) as HS.
  unfold replace_all in Ho. rewrite (scan_replace _ _ _ _ _ Hp Hr HS) in Ho.
  apply occurs_join in Ho; [|done].
  apply Exists_exists in Ho as (seg & Hin & Hseg).
  by exists seg.
Qed.

Lemma replace_all_removes p r s :
  p <> [] -> plain r -> apart p r -> ~ occurs p (replace_all p r s).
Proof.
  intros Hp Hr Hpr Ho.
  apply occurs_replace_all in Ho as (seg & Hin & Hseg); try done.
  pose proof (scan_free _ _ _ Hp (split_on_scan p s Hp)) as Hfree.
  rewrite Forall_forall in Hfree.
  specialize (Hfree _ Hin). by apply occurs_find_first in Hseg.
Qed.

Lemma replace_all_keeps_absent p q r s :
  p <> [] -> plain r -> apart q r ->
  ~ occurs q s -> ~ occurs q (replace_all p r s).
Proof.
  intros Hp Hr Hqr Hs Ho. apply Hs.
  apply occurs_replace_all in Ho as (seg & Hin & Hseg); try done.
  eapply occurs_trans; [done|].
  pose proof (occurs_in_join p seg _ Hin) as Hj.
  by rewrite (scan_join p s) in Hj by by apply split_on_scan.
Qed.

End Occurrences.

(** ** Global replacement against its reference notions *)

Section GlobalReplace.
Implicit Types p s r : str.

Lemma includes_find_first p s : includes p s = false <-> find_first p s = None.
Proof. unfold includes, indexOf. by destruct (find_first p s) as [[??]|]. Qed.



Lemma replace_all_subst_all p r s :
  p <> [] -> plain r -> replace_all p r s = subst_all p r s.
Proof. intros Hp Hr. apply scan_replace; [done..|]. by apply split_on_scan. Qed.



End GlobalReplace.

(** ** The version tokens *)

Lemma tok_version_nonempty : tok_version <> [].
Proof. done. Qed.
Lemma tok_appVersion_nonempty : tok_appVersion <> [].
Proof. done. Qed.
Lemma tok_packageVersion_nonempty : tok_packageVersion <> [].
Proof. done. Qed.

(** A given character is none of the characters of a literal. *)
Ltac not_in_lit :=
  let Hin := fresh "Hin" in
  intros Hin; unfold lit in Hin; simpl in Hin;
  repeat (apply elem_of_cons in Hin as [Hin|Hin]; [by vm_compute in Hin|]);
  by apply elem_of_nil in Hin.

Lemma plain_dev : plain (lit "dev").
Proof. unfold plain. not_in_lit. Qed.

Lemma plain_nil : plain [].
Proof. unfold plain. not_in_lit. Qed.

Ltac apart_token :=
  constructor;
  [ intros c q' E; vm_compute in E; injection E as <- _; not_in_lit
  | intros c q' E; apply (f_equal last) in E; rewrite last_snoc in E;
    vm_compute in E; injection E as <-; not_in_lit
  | rewrite occurs_find_first; vm_compute; congruence
  | done
  | done ].

Lemma apart_appVersion_dev : apart tok_appVersion (lit "dev").
Proof. apart_token. Qed.

Lemma apart_packageVersion_dev : apart tok_packageVersion (lit "dev").
Proof. apart_token. Qed.

(** ** Version tokens in the debug build *)

(** C7 (as amended).  The debug build makes three scans of the text, one
    after the other and each from left to right: the first cuts the text at the
    occurrences of [@version@] that it finds (the leftmost first, the next one
    after the end of the one before) and puts the pieces together with nothing
    between them; the second and the third do the same for [@appVersion@] and
    for [@packageVersion@], with [dev] between the pieces.  The text after the
    three scans contains neither [@appVersion@] nor [@packageVersion@]. *)
Theorem debug_versions_replaced (t : str) :
  debugVersions t
  = subst_all tok_packageVersion (lit "dev")
      (subst_all tok_appVersion (lit "dev") (subst_all tok_version [] t))
  /\ includes tok_appVersion (debugVersions t) = false
  /\ includes tok_packageVersion (debugVersions t) = false.
Proof.
  split_and!.
  - unfold debugVersions.
    by rewrite !replace_all_subst_all
      by auto using tok_version_nonempty, tok_appVersion_nonempty,
           tok_packageVersion_nonempty, plain_dev, plain_nil.
  - unfold debugVersions. apply includes_false.
    apply replace_all_keeps_absent;
      auto using tok_packageVersion_nonempty, plain_dev, apart_appVersion_dev.
    apply replace_all_removes;
      auto using tok_appVersion_nonempty, plain_dev, apart_appVersion_dev.
  - unfold debugVersions. apply includes_false.
    apply replace_all_removes;
      auto using tok_packageVersion_nonempty, plain_dev, apart_packageVersion_dev.
Qed.

(** C7 as stated fails: removing [@version@] from [@ver@version@sion@] joins
    the two halves of another [@version@], which the debug index keeps. *)
Lemma debug_output_keeps_version_token :
  let r := @buildDebugIndex exampleHost (Ex.options None []) (Ex.template "a" false)
             (lit "/work") (lit "/work") (Ex.world_a "x@ver@version@sion@y") in
  r.1 = Ret tt
  /\ files r.2 !! lit "/work/a.html" = Some (lit "x@version@y")
  /\ includes tok_version (lit "x@version@y") = true.
Proof. vm_compute. done. Qed.

(** ** Version tokens in the compiled build *)

Lemma compiledVersionPath_empty `{Host} (options : Options) :
  compiledVersion options = [] -> compiledVersionPath options = [].
Proof. unfold compiledVersionPath. intros ->. simpl. apply slash_empty. Qed.

Lemma compiledVersionPath_nonempty `{Host} (options : Options) :
  compiledVersion options <> [] ->
  compiledVersionPath options = slash (compiledVersion options ++ path_sep).
Proof. unfold compiledVersionPath. by destruct (compiledVersion options). Qed.

(** C6 (as amended).  The compiled build takes as [version] the app version
    (the empty text if unset), as [packageVersion] the override version if it
    is set and not empty, else the package version, else the empty text, and
    as version path [slash] of the version followed by the path separator
    (the empty text for an empty version).  When none of the three holds a
    dollar sign, it makes three scans of the text, each from left to right: the
    first cuts the text at the occurrences of [@appVersion@] that it finds (the
    leftmost first, the next one after the end of the one before) and puts the
    pieces together with the version between them; the second and the third do
    the same for [@packageVersion@] with the package version and for
    [@version@] with the version path. *)
Theorem compiled_versions_replaced `{Host} (options : Options) (t : str) :
  plain (compiledVersion options) ->
  plain (compiledPackageVersion options) ->
  plain (compiledVersionPath options) ->
  compiledVersions options t
  = subst_all tok_version (compiledVersionPath options)
      (subst_all tok_packageVersion (compiledPackageVersion options)
         (subst_all tok_appVersion (compiledVersion options) t))
  /\ compiledVersion options
     = match appVersion options with Some v => v | None => [] end
  /\ compiledPackageVersion options
     = match overrideVersion options with
       | Some (c :: o) => c :: o
       | _ => match packageVersion options with Some v => v | None => [] end
       end
  /\ (compiledVersion options = [] -> compiledVersionPath options = [])
  /\ (compiledVersion options <> [] ->
      compiledVersionPath options = slash (compiledVersion options ++ path_sep)).
Proof.
  intros Hv Hp Hvp. split_and!.
  - unfold compiledVersions.
    by rewrite !replace_all_subst_all
      by auto using tok_version_nonempty, tok_appVersion_nonempty,
           tok_packageVersion_nonempty.
  - unfold compiledVersion. by destruct (appVersion options) as [[|??]|].
  - unfold compiledPackageVersion.
    destruct (overrideVersion options) as [[|??]|]; try done;
      by destruct (packageVersion options) as [[|??]|].
  - apply compiledVersionPath_empty.
  - apply compiledVersionPath_nonempty.
Qed.

Lemma compiled_versions_replaced_witness :
  @compiledVersions exampleHost (Ex.options (Some (lit "v2")) [])
    (lit "v=@appVersion@;p=@version@;q=@version@version@")
  = lit "v=v2;p=v2/;q=v2/version@".
Proof.
  refine (eq_trans
            (proj1 (@compiled_versions_replaced exampleHost
                      (Ex.options (Some (lit "v2")) [])
                      (lit "v=@appVersion@;p=@version@;q=@version@version@") _ _ _)) _).
  - unfold plain; not_in_lit.
  - unfold plain; not_in_lit.
  - unfold plain; not_in_lit.
  - vm_compute. reflexivity.
Defined.

(** C6 as stated fails: in an app version, [$&] stands for the matched
    text, so the token is put back instead of the version. *)
Lemma compiled_version_dollar :
  @compiledVersions exampleHost (Ex.options (Some (lit "$&")) []) (lit "v=@appVersion@")
  = lit "v=@appVersion@"
  /\ lit "v=@appVersion@" <> lit "v=" ++ lit "$&".
Proof. vm_compute. done. Qed.

Example compiled_version_v2 :
  @compiledVersions exampleHost (Ex.options (Some (lit "v2")) [])
    (lit "version='@appVersion@';versionPath='@version@'")
  = lit "version='v2';versionPath='v2/'".
Proof. vm_compute. reflexivity. Qed.

Example compiled_version_unset :
  @compiledVersions exampleHost (Ex.options None [])
    (lit "version='@appVersion@';versionPath='@version@'")
  = lit "version='';versionPath=''".
Proof. vm_compute. reflexivity. Qed.

(** ** Skipped templates *)

(** C9.  For a template descriptor with [skip] set, the debug builder and the
    compiled builder both return normally and leave the world (files,
    directories and console) as it was. *)
Theorem skip_no_effect `{Host} (options : Options) (t : TemplateOptions)
    (base app : str) (w : World) :
  skip t = true ->
  buildDebugIndex options t base app w = (Ret tt, w)
  /\ buildCompiledIndex options t base app w = (Ret tt, w).
Proof.
  intros Hs. unfold buildDebugIndex, buildCompiledIndex. by rewrite Hs.
Qed.

Lemma skip_no_effect_witness :
  @buildDebugIndex exampleHost (Ex.options None []) (Ex.template "a" true)
    (lit "/work") (lit "/work") (Ex.world []) = (Ret tt, Ex.world [])
  /\ @buildCompiledIndex exampleHost (Ex.options None []) (Ex.template "a" true)
    (lit "/work") (lit "/work") (Ex.world []) = (Ret tt, Ex.world []).
Proof.
  apply (@skip_no_effect exampleHost (Ex.options None []) (Ex.template "a" true)).
  reflexivity.
Defined.

(** ** Reading a vendor manifest *)

Ltac run_m :=
  unfold mbind, M_bind, bind, mret, M_ret, ret, try_catch, readFile, readFileSync,
    existsSync, console_log, console_error, console_error_obj, emit, process_exit,
    throw, writeFileSync, mkdirp_sync; cbn.

Section Manifest.
Context `{Host}.

Lemma addVendorCss_missing (t f : str) (w : World) :
  files w !! f = None ->
  addVendorCss t f w
  = (Exit 1, after_read_failure (lit "ERROR: failed reading vendor styles from ") f w).
Proof.
  intros Hf. unfold addVendorCss. run_m. rewrite Hf.
  unfold after_read_failure. by rewrite <- ?app_assoc.
Qed.

Lemma getVendorScripts_missing (f : str) (w : World) :
  files w !! f = None ->
  getVendorScripts f w
  = (Exit 1, after_read_failure (lit "ERROR: failed reading vendor scripts from ") f w).
Proof.
  intros Hf. unfold getVendorScripts. run_m. rewrite Hf.
  unfold after_read_failure. by rewrite <- ?app_assoc.
Qed.

Lemma addVendorScripts_missing (t f : str) (w : World) :
  files w !! f = None ->
  addVendorScripts t f w
  = (Exit 1, after_read_failure (lit "ERROR: failed reading vendor scripts from ") f w).
Proof.
  intros Hf. unfold addVendorScripts. unfold mbind at 1, M_bind, bind.
  by rewrite getVendorScripts_missing.
Qed.

Lemma getVendorScripts_present (f c : str) (w : World) :
  files w !! f = Some c -> getVendorScripts f w = (Ret (split_lines c), w).
Proof. intros Hf. unfold getVendorScripts. run_m. by rewrite Hf. Qed.

Lemma split_lines_nonempty (c : str) : 0 < length (split_lines c).
Proof.
  induction c as [|a c IH]; simpl; [lia|].
  destruct (decide (a = newline)); simpl; [lia|].
  destruct (split_lines c); simpl; lia.
Qed.

Lemma addVendorCss_present (t f c : str) (w : World) :
  files w !! f = Some c ->
  addVendorCss t f w
  = (Ret (replace VENDOR_CSS (join_lines (map createLinkTag (split_lines c))) t),
     after_read (length (split_lines c)) (lit " vendor styles from ") f w).
Proof.
  intros Hf. unfold addVendorCss. run_m. rewrite Hf.
  rewrite bool_decide_true by apply split_lines_nonempty.
  unfold after_read. by rewrite <- ?app_assoc.
Qed.

Lemma addVendorScripts_present (t f c : str) (w : World) :
  files w !! f = Some c ->
  addVendorScripts t f w
  = (Ret (replace VENDOR_JS (join_lines (map createScriptTag (split_lines c))) t),
     after_read (length (split_lines c)) (lit " vendor scripts from ") f w).
Proof.
  intros Hf. unfold addVendorScripts. unfold mbind at 1, M_bind, bind.
  rewrite (getVendorScripts_present _ _ _ Hf).
  rewrite bool_decide_true by apply split_lines_nonempty. run_m.
  unfold after_read. by rewrite <- ?app_assoc.
Qed.

End Manifest.

(** ** Running the builders *)

Section BuildersRun.
Context `{Host}.
Variables (options : Options) (t : TemplateOptions) (base app : str).

Lemma exists_present (p c : str) (w : World) :
  files w !! p = Some c ->
  bool_decide (is_Some (files w !! p)) || bool_decide (p ∈ dirs w) = true.
Proof. intros ->. by rewrite bool_decide_true. Qed.

Lemma exists_absent (p : str) (w : World) :
  files w !! p = None -> p ∉ dirs w ->
  bool_decide (is_Some (files w !! p)) || bool_decide (p ∈ dirs w) = false.
Proof.
  intros -> Hd. rewrite (bool_decide_false (p ∈ dirs w)) by done.
  rewrite bool_decide_false; [done|]. by intros [? ?].
Qed.

Lemma buildDebugIndex_missing_template (w : World) :
  skip t = false ->
  files w !! templatePath_of t base = None -> templatePath_of t base ∉ dirs w ->
  buildDebugIndex options t base app w
  = (Throw (Err (lit "Missing template file " ++ templatePath_of t base)), w).
Proof.
  intros Hs Hf Hd. unfold buildDebugIndex. rewrite Hs. run_m.
  by rewrite exists_absent.
Qed.

Lemma buildCompiledIndex_missing_template (w : World) :
  skip t = false ->
  files w !! templatePath_of t base = None -> templatePath_of t base ∉ dirs w ->
  buildCompiledIndex options t base app w
  = (Throw (Err (lit "Missing template file " ++ templatePath_of t base)), w).
Proof.
  intros Hs Hf Hd. unfold buildCompiledIndex. rewrite Hs. run_m.
  by rewrite exists_absent.
Qed.

Ltac open_template Hs Hf :=
  rewrite Hs; run_m; rewrite (exists_present _ _ _ Hf); cbn; rewrite Hf; cbn;
  unfold mbind, M_bind, bind.

Lemma buildCompiledIndex_css_missing (w : World) (c : str) :
  skip t = false ->
  files w !! templatePath_of t base = Some c ->
  files w !! distCss t app = None ->
  exists w', buildCompiledIndex options t base app w = (Exit 1, w')
             /\ files w' = files w.
Proof.
  intros Hs Hf Hm. unfold buildCompiledIndex. open_template Hs Hf.
  rewrite addVendorCss_missing by done. by eexists.
Qed.

Lemma buildCompiledIndex_js_missing (w : World) (c m : str) :
  skip t = false ->
  files w !! templatePath_of t base = Some c ->
  files w !! distCss t app = Some m ->
  files w !! distJs t app = None ->
  exists w', buildCompiledIndex options t base app w = (Exit 1, w')
             /\ files w' = files w.
Proof.
  intros Hs Hf Hm Hj. unfold buildCompiledIndex. open_template Hs Hf.
  rewrite (addVendorCss_present _ _ m) by done.
  rewrite addVendorScripts_missing by done. by eexists.
Qed.

Lemma buildDebugIndex_css_missing (w : World) (c : str) :
  skip t = false ->
  files w !! templatePath_of t base = Some c ->
  files w !! debugCssManifest t app = None ->
  exists w', buildDebugIndex options t base app w = (Exit 1, w')
             /\ files w' = files w.
Proof.
  intros Hs Hf Hm. unfold buildDebugIndex. open_template Hs Hf.
  rewrite addVendorCss_missing by done. by eexists.
Qed.

Lemma buildDebugIndex_js_missing (w : World) (c m : str) :
  skip t = false ->
  files w !! templatePath_of t base = Some c ->
  files w !! debugCssManifest t app = Some m ->
  includes VENDOR_JS (debugBeforeJs options c m) = true ->
  files w !! debugJsManifest t app = None ->
  exists w', buildDebugIndex options t base app w = (Exit 1, w')
             /\ files w' = files w.
Proof.
  intros Hs Hf Hm Hi Hj. unfold buildDebugIndex. open_template Hs Hf.
  rewrite (addVendorCss_present _ _ m) by done.
  unfold debugVendorJs. fold (debugBeforeJs options c m). rewrite Hi.
  unfold mbind, M_bind, bind. rewrite getVendorScripts_missing by done.
  by eexists.
Qed.

(** Without the vendor script marker the debug manifest of the scripts is
    not read: the build succeeds whether or not that file is there. *)
Lemma buildDebugIndex_no_vendor_js (w : World) (c m : str) :
  skip t = false ->
  files w !! templatePath_of t base = Some c ->
  files w !! debugCssManifest t app = Some m ->
  includes VENDOR_JS (debugBeforeJs options c m) = false ->
  exists w', buildDebugIndex options t base app w = (Ret tt, w')
    /\ files w' = <[path_join [base; id t ++ lit ".html"]
                    := debugAppJs base app (debugBeforeJs options c m)]> (files w).
Proof.
  intros Hs Hf Hm Hi. unfold buildDebugIndex. open_template Hs Hf.
  rewrite (addVendorCss_present _ _ m) by done.
  unfold debugVendorJs. fold (debugBeforeJs options c m). rewrite Hi.
  run_m. by eexists.
Qed.

Lemma buildDebugIndex_vendor_js (w : World) (c m j : str) :
  skip t = false ->
  files w !! templatePath_of t base = Some c ->
  files w !! debugCssManifest t app = Some m ->
  includes VENDOR_JS (debugBeforeJs options c m) = true ->
  files w !! debugJsManifest t app = Some j ->
  exists w', buildDebugIndex options t base app w = (Ret tt, w')
    /\ files w' = <[path_join [base; id t ++ lit ".html"]
                    := debugAppJs base app
                         (replace VENDOR_JS
                            (join_lines (map createScriptTag (split_lines j)))
                            (debugBeforeJs options c m))]> (files w).
Proof.
  intros Hs Hf Hm Hi Hj. unfold buildDebugIndex. open_template Hs Hf.
  rewrite (addVendorCss_present _ _ m) by done.
  unfold debugVendorJs. fold (debugBeforeJs options c m). rewrite Hi.
  unfold mbind, M_bind, bind.
  rewrite (getVendorScripts_present _ j) by done.
  run_m. by eexists.
Qed.

End BuildersRun.

(** ** Replacing a marker *)

Section Markers.
Implicit Types m r t b a : str.


Lemma replace_absent m r t : includes m t = false -> replace m r t = t.
Proof.
  rewrite includes_find_first. intros F. unfold replace. by rewrite F.
Qed.

Lemma replace_subst_first m r t : plain r -> replace m r t = subst_first m r t.
Proof.
  intros Hr. unfold replace, subst_first.
  destruct (find_first m t) as [[b a]|]; [|done].
  by rewrite getSubstitution_plain.
Qed.

Lemma includes_true_find m t :
  includes m t = true -> exists b a, find_first m t = Some (b, a).
Proof.
  unfold includes, indexOf. destruct (find_first m t) as [[b a]|]; [|done].
  intros _. by exists b, a.
Qed.


End Markers.

(** ** After [process.exit] *)

Section Exit.
Context `{Host}.
Variables (loader : nat -> LoaderResult) (options : Options) (debugOnly : bool)
  (base app : str).

Lemma callbacks_exited (i : nat) (st : State) (code : nat) :
  exited st = Some code -> callbacks loader options debugOnly base app i st = st.
Proof. intros He. unfold callbacks. by rewrite He. Qed.

Lemma run_exited (sched : list nat) (st : State) (code : nat) :
  exited st = Some code ->
  foldl (fun st i => callbacks loader options debugOnly base app i st) st sched = st.
Proof.
  intros He. induction sched as [|i sched IH]; [done|].
  cbn [foldl]. by rewrite (callbacks_exited _ _ _ He).
Qed.

Lemma callbacks_debug_exit (i : nat) (st : State) (t : TemplateOptions)
    (code : nat) (w' : World) :
  exited st = None ->
  default [] (templates options) !! i = Some t ->
  mapperPromise loader i t = Fulfilled ->
  buildDebugIndex options t base app (world st) = (Exit code, w') ->
  callbacks loader options debugOnly base app i st
  = {| world := w'; trace := trace st ++ [DebugBuild i (Exit code)];
       exited := Some code |}.
Proof.
  intros He Ht Hp Hb. unfold callbacks. by rewrite He, Ht, Hp, Hb.
Qed.

End Exit.

(** C4.  When reading a vendor manifest fails, the helper that reads it
    (styles or scripts) logs two error entries and ends the process with
    status 1.  So do the compiled build, for either of its two manifests, and
    the debug build, for its manifest of styles and (when the script marker is
    there to be filled) its manifest of scripts; no index is written.  Once the
    process has exited, no callback of any template runs. *)
Theorem manifest_read_failure_exits `{Host} (f : str) (w : World) :
  files w !! f = None ->
  (forall tpl, addVendorCss tpl f w
     = (Exit 1, after_read_failure (lit "ERROR: failed reading vendor styles from ") f w))
  /\ getVendorScripts f w
     = (Exit 1, after_read_failure (lit "ERROR: failed reading vendor scripts from ") f w)
  /\ (forall tpl, addVendorScripts tpl f w
     = (Exit 1, after_read_failure (lit "ERROR: failed reading vendor scripts from ") f w))
  /\ (forall options t base app c,
        skip t = false -> files w !! templatePath_of t base = Some c ->
        (f = distCss t app ->
           exists w', buildCompiledIndex options t base app w = (Exit 1, w')
                      /\ files w' = files w)
        /\ (f = distJs t app -> forall m, files w !! distCss t app = Some m ->
           exists w', buildCompiledIndex options t base app w = (Exit 1, w')
                      /\ files w' = files w)
        /\ (f = debugCssManifest t app ->
           exists w', buildDebugIndex options t base app w = (Exit 1, w')
                      /\ files w' = files w)
        /\ (f = debugJsManifest t app ->
           forall m, files w !! debugCssManifest t app = Some m ->
           includes VENDOR_JS (debugBeforeJs options c m) = true ->
           exists w', buildDebugIndex options t base app w = (Exit 1, w')
                      /\ files w' = files w))
  /\ (forall loader options debugOnly base app i st t w',
        exited st = None ->
        default [] (templates options) !! i = Some t ->
        mapperPromise loader i t = Fulfilled ->
        buildDebugIndex options t base app (world st) = (Exit 1, w') ->
        forall sched,
          foldl (fun st i => callbacks loader options debugOnly base app i st)
                st (i :: sched)
          = {| world := w'; trace := trace st ++ [DebugBuild i (Exit 1)];
               exited := Some 1 |}).
Proof.
  intros Hf. split_and!.
  - intros tpl. by apply addVendorCss_missing.
  - by apply getVendorScripts_missing.
  - intros tpl. by apply addVendorScripts_missing.
  - intros options t base app c Hs Ht. split_and!.
    + intros ->. by eapply buildCompiledIndex_css_missing.
    + intros -> m Hm. by eapply buildCompiledIndex_js_missing.
    + intros ->. by eapply buildDebugIndex_css_missing.
    + intros -> m Hm Hi. by eapply buildDebugIndex_js_missing.
  - intros loader options debugOnly base app i st t w' He Ht Hp Hb sched.
    cbn [foldl]. rewrite (callbacks_debug_exit _ _ _ _ _ _ _ _ _ _ He Ht Hp Hb).
    by eapply run_exited.
Qed.

Lemma manifest_read_failure_exits_witness :
  getVendorScripts (lit "/work/.build/resources-js-dist-a") (Ex.world [])
  = (Exit 1,
     after_read_failure (lit "ERROR: failed reading vendor scripts from ")
       (lit "/work/.build/resources-js-dist-a") (Ex.world [])).
Proof.
  apply (@manifest_read_failure_exits exampleHost
           (lit "/work/.build/resources-js-dist-a") (Ex.world [])).
  reflexivity.
Defined.

(** ** The vendor block *)

Section Blocks.
Context `{Host}.

Lemma createLinkTag_entry (l : str) :
  createLinkTag l = match l with [] => [] | _ :: _ => link_tag (slash l) end.
Proof. by destruct l. Qed.

Lemma createScriptTag_entry (l : str) :
  createScriptTag l = match l with [] => [] | _ :: _ => script_tag (slash l) end.
Proof. by destruct l. Qed.

Lemma map_createLinkTag (lines : list str) :
  map createLinkTag lines = tag_entries link_tag lines.
Proof. unfold tag_entries. apply map_ext. apply createLinkTag_entry. Qed.

Lemma map_createScriptTag (lines : list str) :
  map createScriptTag lines = tag_entries script_tag lines.
Proof. unfold tag_entries. apply map_ext. apply createScriptTag_entry. Qed.

Lemma join_lines_join_with (xs : list str) : join_lines xs = join_with [newline] xs.
Proof.
  induction xs as [|x [|y rest] IH]; [done..|].
  cbn [join_lines join_with] in *. by rewrite IH.
Qed.

Lemma split_lines_join (c : str) : join_with [newline] (split_lines c) = c.
Proof.
  induction c as [|a c IH]; [done|]. cbn [split_lines].
  pose proof (split_lines_nonempty c) as Hne.
  destruct (split_lines c) as [|l ls] eqn:E; [cbn in Hne; lia|].
  destruct (decide (a = newline)) as [->|Ha].
  - by rewrite <- IH.
  - rewrite <- IH. by destruct ls.
Qed.

Lemma split_lines_no_newline (c : str) :
  Forall (fun l => newline ∉ l) (split_lines c).
Proof.
  induction c as [|a c IH]; [repeat constructor; apply not_elem_of_nil|].
  cbn [split_lines]. destruct (decide (a = newline)) as [->|Ha].
  - constructor; [apply not_elem_of_nil|done].
  - destruct (split_lines c) as [|l ls].
    + repeat constructor. apply not_elem_of_cons. split; [done|apply not_elem_of_nil].
    + apply Forall_cons in IH as [Hl Hls]. constructor; [|done].
      apply not_elem_of_cons. split; [congruence|done].
Qed.

Lemma tag_entries_filter (tag : str -> str) (lines : list str) :
  (forall x, nonempty (tag x) = true) ->
  List.filter nonempty (tag_entries tag lines)
  = map (fun l => tag (slash l)) (List.filter nonempty lines).
Proof.
  intros Htag. unfold tag_entries.
  induction lines as [|l lines IH]; [done|].
  destruct l as [|a l]; cbn [map List.filter nonempty]; [done|].
  by rewrite Htag, IH.
Qed.

Lemma addVendorCss_block (t f c : str) (w : World) :
  files w !! f = Some c ->
  (addVendorCss t f w).1
  = Ret (replace VENDOR_CSS (tag_block link_tag (split_lines c)) t).
Proof.
  intros Hf. rewrite (addVendorCss_present _ _ _ _ Hf). cbn [fst].
  by rewrite join_lines_join_with, map_createLinkTag.
Qed.

Lemma addVendorScripts_block (t f c : str) (w : World) :
  files w !! f = Some c ->
  (addVendorScripts t f w).1
  = Ret (replace VENDOR_JS (tag_block script_tag (split_lines c)) t).
Proof.
  intros Hf. rewrite (addVendorScripts_present _ _ _ _ Hf). cbn [fst].
  by rewrite join_lines_join_with, map_createScriptTag.
Qed.

End Blocks.

(** C5 (as amended).  For a manifest that can be read, with [lines] its
    lines (the text between the line breaks of the file): the helper puts, at
    the first occurrence of its vendor marker, one entry for each line with a
    line break between neighbours, where the entry of a non-empty line is the
    tag [<link rel="stylesheet" href="...">] (styles) or
    [<script src="..."></script>] (scripts) around the line after [slash], and
    the entry of an empty line is empty.  So with [N] non-empty lines the block
    holds exactly [N] tags, in the order of the lines.  The block goes in as
    it is when it holds no dollar sign; for an empty manifest nothing goes in
    and the marker is taken out.  No file is changed. *)
Theorem vendor_block `{Host} (t f c : str) (w : World) :
  files w !! f = Some c ->
  (join_with [newline] (split_lines c) = c
   /\ Forall (fun l => newline ∉ l) (split_lines c))
  /\ (addVendorCss t f w).1
     = Ret (replace VENDOR_CSS (tag_block link_tag (split_lines c)) t)
  /\ (addVendorScripts t f w).1
     = Ret (replace VENDOR_JS (tag_block script_tag (split_lines c)) t)
  /\ (plain (tag_block link_tag (split_lines c)) ->
      (addVendorCss t f w).1
      = Ret (subst_first VENDOR_CSS (tag_block link_tag (split_lines c)) t))
  /\ (plain (tag_block script_tag (split_lines c)) ->
      (addVendorScripts t f w).1
      = Ret (subst_first VENDOR_JS (tag_block script_tag (split_lines c)) t))
  /\ (List.filter nonempty (tag_entries link_tag (split_lines c))
      = map (fun l => link_tag (slash l)) (List.filter nonempty (split_lines c))
      /\ List.filter nonempty (tag_entries script_tag (split_lines c))
         = map (fun l => script_tag (slash l)) (List.filter nonempty (split_lines c)))
  /\ (length (List.filter nonempty (tag_entries link_tag (split_lines c)))
      = length (List.filter nonempty (split_lines c))
      /\ length (List.filter nonempty (tag_entries script_tag (split_lines c)))
         = length (List.filter nonempty (split_lines c)))
  /\ (c = [] ->
      (addVendorCss t f w).1 = Ret (subst_first VENDOR_CSS [] t)
      /\ (addVendorScripts t f w).1 = Ret (subst_first VENDOR_JS [] t))
  /\ (files (addVendorCss t f w).2 = files w
      /\ files (addVendorScripts t f w).2 = files w).
Proof.
  intros Hf.
  pose proof (tag_entries_filter link_tag (split_lines c) (fun _ => eq_refl)) as Hl.
  pose proof (tag_entries_filter script_tag (split_lines c) (fun _ => eq_refl)) as Hs.
  split_and!.
  - apply split_lines_join.
  - apply split_lines_no_newline.
  - by apply addVendorCss_block.
  - by apply addVendorScripts_block.
  - intros Hp. rewrite (addVendorCss_block _ _ _ _ Hf). f_equal.
    by apply replace_subst_first.
  - intros Hp. rewrite (addVendorScripts_block _ _ _ _ Hf). f_equal.
    by apply replace_subst_first.
  - done.
  - done.
  - by rewrite Hl, length_map.
  - by rewrite Hs, length_map.
  - intros ->. rewrite (addVendorCss_block _ _ _ _ Hf).
    rewrite (addVendorScripts_block _ _ _ _ Hf).
    split; f_equal; apply replace_subst_first, plain_nil.
  - by rewrite (addVendorCss_present _ _ _ _ Hf).
  - by rewrite (addVendorScripts_present _ _ _ _ Hf).
Qed.

Lemma vendor_block_witness :
  (@addVendorCss exampleHost (lit "x<!--VENDOR_CSS-->y") (lit "/m")
     (Ex.world [(lit "/m", lit "a.css" ++ newline :: lit "b\c.css")])).1
  = Ret (lit "x" ++ link_tag (lit "a.css") ++ newline :: link_tag (lit "b/c.css")
           ++ lit "y").
Proof.
  refine (eq_trans
            (proj1 (proj2 (proj2 (proj2
               (@vendor_block exampleHost (lit "x<!--VENDOR_CSS-->y") (lit "/m")
                  (lit "a.css" ++ newline :: lit "b\c.css")
                  (Ex.world [(lit "/m", lit "a.css" ++ newline :: lit "b\c.css")])
                  eq_refl)))) _) _).
  - apply (bool_decide_unpack _). vm_compute. exact I.
  - vm_compute. reflexivity.
Defined.

(** C5 as stated fails for an absent manifest: the process exits, the
    marker is not removed. *)
Lemma absent_manifest_exits :
  (@addVendorCss exampleHost (lit "a<!--VENDOR_CSS-->b") (lit "/m") (Ex.world [])).1
  = Exit 1
  /\ (@addVendorScripts exampleHost (lit "a<!--VENDOR_JS-->b") (lit "/m") (Ex.world [])).1
  = Exit 1
  /\ @Exit str 1 <> Ret (lit "ab").
Proof. vm_compute. done. Qed.

Example vendor_block_three_lines :
  (@addVendorCss exampleHost (lit "x<!--VENDOR_CSS-->y") (lit "/m")
     (Ex.world [(lit "/m", lit "a.css" ++ newline :: lit "b.css" ++ [newline])])).1
  = Ret (lit "x<link rel=" ++ dquote :: lit "stylesheet" ++ dquote :: lit " href="
           ++ dquote :: lit "a.css" ++ dquote :: lit ">" ++ newline
           :: lit "<link rel=" ++ dquote :: lit "stylesheet" ++ dquote :: lit " href="
           ++ dquote :: lit "b.css" ++ dquote :: lit ">" ++ newline :: lit "y").
Proof. vm_compute. reflexivity. Qed.

(** ** The script markers of the debug build *)

Section ScriptMarkers.
Context `{Host}.

Lemma includes_occurs (q s : str) : includes q s = true <-> occurs q s.
Proof.
  split.
  - intros Hi. destruct (includes_true_find _ _ Hi) as (b & a & F).
    exists b, a. by apply find_first_Some.
  - intros Ho. destruct (includes q s) eqn:E; [done|].
    by apply includes_false in E.
Qed.

Lemma appScripts_entries (base app : str) :
  join_lines (appScripts base app) = tag_block script_tag (bootstrapPaths base app).
Proof.
  unfold appScripts, getAppLoaderPath. by rewrite join_lines_join_with, map_createScriptTag.
Qed.

Lemma debugAppJs_absent (base app tpl : str) :
  ~ occurs APP_JS tpl -> debugAppJs base app tpl = tpl.
Proof. intros Ho. apply includes_false in Ho. unfold debugAppJs. by rewrite Ho. Qed.

Lemma debugAppJs_present (base app tpl : str) :
  occurs APP_JS tpl ->
  debugAppJs base app tpl
  = replace APP_JS (tag_block script_tag (bootstrapPaths base app)) tpl.
Proof.
  intros Ho. apply includes_occurs in Ho. unfold debugAppJs.
  by rewrite Ho, appScripts_entries.
Qed.

Lemma debugVendorJs_absent (i app tpl : str) (w : World) :
  ~ occurs VENDOR_JS tpl -> debugVendorJs i app tpl w = (Ret tpl, w).
Proof. intros Ho. apply includes_false in Ho. unfold debugVendorJs. by rewrite Ho. Qed.

Lemma debugVendorJs_present (i app tpl j : str) (w : World) :
  occurs VENDOR_JS tpl ->
  files w !! path_join [app; lit ".build"; lit "resources-js-debug-" ++ i] = Some j ->
  debugVendorJs i app tpl w
  = (Ret (replace VENDOR_JS (tag_block script_tag (split_lines j)) tpl), w).
Proof.
  intros Ho Hj. apply includes_occurs in Ho. unfold debugVendorJs. rewrite Ho.
  unfold mbind, M_bind, bind. rewrite (getVendorScripts_present _ _ _ Hj).
  cbn. by rewrite join_lines_join_with, map_createScriptTag.
Qed.

Lemma debugVendorJs_missing (i app tpl : str) (w : World) :
  occurs VENDOR_JS tpl ->
  files w !! path_join [app; lit ".build"; lit "resources-js-debug-" ++ i] = None ->
  (debugVendorJs i app tpl w).1 = Exit 1.
Proof.
  intros Ho Hj. apply includes_occurs in Ho. unfold debugVendorJs. rewrite Ho.
  unfold mbind, M_bind, bind. by rewrite (getVendorScripts_missing _ _ Hj).
Qed.

End ScriptMarkers.

(** C8.  In the debug build the two script markers are filled only if they
    are there.  Vendor scripts: if the marker does not occur in the text, the
    manifest of the debug scripts is not read and the text is left as it is; if
    it occurs, its first occurrence gets, for the lines of the manifest at
    [<appPath>/.build/resources-js-debug-<id>], one [<script src="..."></script>]
    tag for each non-empty line, with a line break between the entries.  App
    scripts: if the marker does not occur, the text is left as it is; if it
    occurs, its first occurrence gets exactly four script tags, in this order:
    the defines file [.build/gcc-defines-debug.js], the Closure [base.js], the
    Closure [deps.js] and the application loader [.build/app-loader.js], each
    relative to the base path.  The builder looks for the markers in the text
    that the version tokens, the vendor styles and the app stylesheet have
    left, and the index it writes is that text with the markers so filled. *)
Theorem debug_script_markers `{Host} (options : Options) (t : TemplateOptions)
    (base app tpl : str) (w : World) :
  (~ occurs VENDOR_JS tpl -> debugVendorJs (id t) app tpl w = (Ret tpl, w))
  /\ (occurs VENDOR_JS tpl ->
      forall j,
        files w !! path_join [app; lit ".build"; lit "resources-js-debug-" ++ id t]
          = Some j ->
        debugVendorJs (id t) app tpl w
          = (Ret (replace VENDOR_JS (tag_block script_tag (split_lines j)) tpl), w)
        /\ (plain (tag_block script_tag (split_lines j)) ->
            debugVendorJs (id t) app tpl w
            = (Ret (subst_first VENDOR_JS (tag_block script_tag (split_lines j)) tpl), w)))
  /\ (occurs VENDOR_JS tpl ->
      files w !! path_join [app; lit ".build"; lit "resources-js-debug-" ++ id t] = None ->
      (debugVendorJs (id t) app tpl w).1 = Exit 1)
  /\ (~ occurs APP_JS tpl -> debugAppJs base app tpl = tpl)
  /\ (occurs APP_JS tpl ->
      debugAppJs base app tpl
        = replace APP_JS (tag_block script_tag (bootstrapPaths base app)) tpl
      /\ (plain (tag_block script_tag (bootstrapPaths base app)) ->
          debugAppJs base app tpl
          = subst_first APP_JS (tag_block script_tag (bootstrapPaths base app)) tpl))
  /\ bootstrapPaths base app
     = [ path_relative base (path_join [app; lit ".build"; lit "gcc-defines-debug.js"]);
         path_relative base
           (path_join [path_join [closureLibPath; lit "closure"; lit "goog"];
                       lit "base.js"]);
         path_relative base
           (path_join [path_join [closureLibPath; lit "closure"; lit "goog"];
                       lit "deps.js"]);
         path_relative base (path_join [app; lit ".build"; lit "app-loader.js"]) ]
  /\ (forall c m,
        skip t = false ->
        files w !! templatePath_of t base = Some c ->
        files w !! debugCssManifest t app = Some m ->
        (~ occurs VENDOR_JS (debugBeforeJs options c m) ->
         exit_of (buildDebugIndex options t base app w).1 = None
         /\ ((buildDebugIndex options t base app w).1 = Ret tt ->
             files (buildDebugIndex options t base app w).2
               !! path_join [base; id t ++ lit ".html"]
             = Some (debugAppJs base app (debugBeforeJs options c m))))
        /\ (occurs VENDOR_JS (debugBeforeJs options c m) ->
            forall j, files w !! debugJsManifest t app = Some j ->
            (buildDebugIndex options t base app w).1 = Ret tt ->
            files (buildDebugIndex options t base app w).2
              !! path_join [base; id t ++ lit ".html"]
            = Some (debugAppJs base app
                      (replace VENDOR_JS (tag_block script_tag (split_lines j))
                         (debugBeforeJs options c m))))).
Proof.
  split_and!.
  - apply debugVendorJs_absent.
  - intros Ho j Hj. split; [by apply debugVendorJs_present|].
    intros Hp. rewrite (debugVendorJs_present _ _ _ _ _ Ho Hj).
    by rewrite replace_subst_first.
  - apply debugVendorJs_missing.
  - apply debugAppJs_absent.
  - intros Ho. split; [by apply debugAppJs_present|].
    intros Hp. rewrite (debugAppJs_present _ _ _ Ho). by apply replace_subst_first.
  - done.
  - intros c m Hs Hc Hm. split.
    + intros Ho. apply includes_false in Ho.
      destruct (buildDebugIndex_no_vendor_js options t base app w c m Hs Hc Hm Ho)
        as (w' & -> & Hw').
      split; [done|]. intros _. cbn [snd]. by rewrite Hw', lookup_insert_eq.
    + intros Ho j Hj _. apply includes_occurs in Ho.
      destruct (buildDebugIndex_vendor_js options t base app w c m j Hs Hc Hm Ho Hj)
        as (w' & -> & Hw').
      cbn [snd]. rewrite Hw', lookup_insert_eq.
      by rewrite join_lines_join_with, map_createScriptTag.
Qed.

Lemma debug_script_markers_witness :
  files (@buildDebugIndex exampleHost (Ex.options None []) (Ex.template "a" false)
           (lit "/work") (lit "/work")
           (Ex.world [ (lit "/work/a-template.html", lit "<!--VENDOR_JS-->|<!--APP_JS-->");
                       (lit "/work/.build/resources-css-debug-a", []);
                       (lit "/work/.build/resources-js-debug-a", lit "v\w.js") ])).2
    !! lit "/work/a.html"
  = Some (script_tag (lit "v/w.js") ++ lit "|"
            ++ script_tag (lit ".build/gcc-defines-debug.js") ++ newline
            :: script_tag (lit "node_modules/google-closure-library/closure/goog/base.js")
            ++ newline
            :: script_tag (lit "node_modules/google-closure-library/closure/goog/deps.js")
            ++ newline :: script_tag (lit ".build/app-loader.js")).
Proof.
  pose proof (@debug_script_markers exampleHost (Ex.options None [])
                (Ex.template "a" false) (lit "/work") (lit "/work") []
                (Ex.world [ (lit "/work/a-template.html",
                             lit "<!--VENDOR_JS-->|<!--APP_JS-->");
                            (lit "/work/.build/resources-css-debug-a", []);
                            (lit "/work/.build/resources-js-debug-a", lit "v\w.js") ]))
    as (_ & _ & _ & _ & _ & _ & Hbuild).
  destruct (Hbuild (lit "<!--VENDOR_JS-->|<!--APP_JS-->") [] eq_refl eq_refl eq_refl)
    as [_ Hocc].
  refine (eq_trans (Hocc _ (lit "v\w.js") eq_refl _) _).
  - apply includes_occurs. vm_compute. reflexivity.
  - vm_compute. reflexivity.
  - vm_compute. reflexivity.
Defined.

Example debug_without_script_manifest :
  let r := @buildDebugIndex exampleHost (Ex.options None []) (Ex.template "a" false)
             (lit "/work") (lit "/work")
             (Ex.world [ (lit "/work/a-template.html", lit "<p>@appVersion@</p>");
                         (lit "/work/.build/resources-css-debug-a", []) ]) in
  r.1 = Ret tt /\ files r.2 !! lit "/work/a.html" = Some (lit "<p>dev</p>").
Proof. vm_compute. done. Qed.

(** ** First occurrence against every occurrence *)



Example second_marker_stays :
  @addAppScript exampleHost (Some (lit "app.js")) (lit "<!--APP_JS-->|<!--APP_JS-->")
  = lit "<script src=" ++ dquote :: lit "app.js" ++ dquote
      :: lit "></script>|<!--APP_JS-->".
Proof. vm_compute. reflexivity. Qed.

Example every_token_replaced :
  debugVersions (lit "@appVersion@|@appVersion@|@version@|@version@|@packageVersion@")
  = lit "dev|dev|||dev".
Proof. vm_compute. reflexivity. Qed.

(** ** The orchestrator *)

Section Runs.
Context `{Host}.
Variables (loader : nat -> LoaderResult) (options : Options) (debugOnly : bool)
  (base app : str).

(** What the callbacks of template [i] add to the trace: builds of [i]
    only, and nothing when the promise of [i] is rejected. *)
Lemma callbacks_trace (i : nat) (st : State) :
  exists evs,
    trace (callbacks loader options debugOnly base app i st) = trace st ++ evs
    /\ Forall (fun e => isLoaderStart e = false) evs
    /\ Forall (fun e => isBuildOf i e = true) evs
    /\ (forall t e, default [] (templates options) !! i = Some t ->
          mapperPromise loader i t = Rejected e -> evs = []).
Proof.
  unfold callbacks.
  destruct (exited st) as [c|] eqn:He;
    [exists []; rewrite app_nil_r; by split_and!|].
  destruct (default [] (templates options) !! i) as [t|] eqn:Ht;
    [|exists []; rewrite app_nil_r; by split_and!].
  destruct (mapperPromise loader i t) as [|e] eqn:Hp;
    [|exists []; rewrite app_nil_r; by split_and!].
  destruct (buildDebugIndex options t base app (world st)) as [o w] eqn:Hd.
  cbn [exited record].
  destruct (exit_of o) as [c|] eqn:Hx.
  { exists [DebugBuild i o]. split_and!; try done.
    - repeat constructor.
    - repeat constructor. cbn. by rewrite bool_decide_true.
    - intros t' e' [= <-]. by rewrite Hp. }
  destruct debugOnly.
  { exists [DebugBuild i o]. split_and!; try done.
    - repeat constructor.
    - repeat constructor. cbn. by rewrite bool_decide_true.
    - intros t' e' [= <-]. by rewrite Hp. }
  cbn [world record].
  destruct (buildCompiledIndex options t base app w) as [o' w'] eqn:Hc.
  exists [DebugBuild i o; CompiledBuild i o']. cbn [trace record].
  split_and!.
  - by rewrite <- app_assoc.
  - repeat constructor.
  - repeat constructor; cbn; by rewrite bool_decide_true.
  - intros t' e' [= <-]. by rewrite Hp.
Qed.

Lemma run_trace (sched : list nat) (st : State) :
  exists evs,
    trace (foldl (fun st i => callbacks loader options debugOnly base app i st)
             st sched) = trace st ++ evs
    /\ Forall (fun e => isLoaderStart e = false) evs
    /\ (forall i t e, default [] (templates options) !! i = Some t ->
          mapperPromise loader i t = Rejected e ->
          Forall (fun e => isBuildOf i e = false) evs).
Proof.
  revert st; induction sched as [|j sched IH]; intros st.
  - exists []. rewrite app_nil_r. by split_and!.
  - cbn [foldl].
    destruct (IH (callbacks loader options debugOnly base app j st))
      as (evs2 & E2 & L2 & B2).
    destruct (callbacks_trace j st) as (evs1 & E1 & L1 & B1 & R1).
    exists (evs1 ++ evs2). split_and!.
    + by rewrite E2, E1, <- app_assoc.
    + by apply Forall_app.
    + intros i t e Ht Hp. apply Forall_app. split; [|by eapply B2].
      destruct (decide (i = j)) as [->|Hij].
      * rewrite (R1 _ _ Ht Hp). constructor.
      * eapply Forall_impl; [exact B1|]. intros ev. destruct ev; cbn; try done.
        all: rewrite !bool_decide_eq_true; intros <-; by rewrite bool_decide_false.
Qed.

End Runs.

Section Mapper.
Context `{Host}.
Variable loader : nat -> LoaderResult.

Lemma mapperCalls_loader (i : nat) (ts : list TemplateOptions) :
  Forall (fun e => isLoaderStart e = true) (mapperCalls i ts).
Proof.
  revert i; induction ts as [|t ts IH]; intros i; cbn [mapperCalls]; [constructor|].
  apply Forall_app. split; [|apply IH]. destruct (needsLoader t); repeat constructor.
Qed.

Lemma mapperCalls_count (i : nat) (ts : list TemplateOptions) :
  loaderStarts (mapperCalls i ts) = length (List.filter needsLoader ts).
Proof.
  unfold loaderStarts. revert i; induction ts as [|t ts IH]; intros i; [done|].
  cbn [mapperCalls List.filter]. rewrite List.filter_app, length_app, IH.
  by destruct (needsLoader t).
Qed.

Lemma mapperCalls_elem (k i : nat) (ts : list TemplateOptions) :
  LoaderStarted i ∈ mapperCalls k ts
  <-> exists t, k <= i /\ ts !! (i - k) = Some t /\ needsLoader t = true.
Proof.
  revert k; induction ts as [|t ts IH]; intros k; cbn [mapperCalls].
  - split; [by intros ?%elem_of_nil|]. by intros (t & _ & ? & _).
  - rewrite elem_of_app, IH. split.
    + intros [Hin|(t' & Hk & Ht' & Hn)].
      * destruct (needsLoader t) eqn:Hn; [|by apply elem_of_nil in Hin].
        apply list_elem_of_singleton in Hin as [= ->].
        exists t. rewrite Nat.sub_diag. by split_and!.
      * exists t'. split_and!; [lia| |done].
        replace (i - k) with (S (i - S k)) by lia. done.
    + intros (t' & Hk & Ht' & Hn).
      destruct (decide (i = k)) as [->|Hik].
      * left. rewrite Nat.sub_diag in Ht'. injection Ht' as ->.
        rewrite Hn. by apply list_elem_of_singleton.
      * right. exists t'. split_and!; [lia| |done].
        replace (i - k) with (S (i - S k)) in Ht' by lia. done.
Qed.

Lemma filter_nonloader (evs : list Event) :
  Forall (fun e => isLoaderStart e = false) evs -> List.filter isLoaderStart evs = [].
Proof.
  induction 1 as [|e evs He _ IH]; [done|]. cbn [List.filter]. by rewrite He.
Qed.

End Mapper.

(** ** Generations of the debug loader *)

(** C1 (as amended).  For every template list, [buildIndex] starts a
    generation of the debug loader only for a template whose id is [index] and
    whose skip flag is not set, one for each of them: exactly one when the list
    has exactly one such template, none when it has none.  Every generation is
    started before any debug or compiled build runs, that template's own
    included. *)
Theorem loader_generations `{Host} (loader : nat -> LoaderResult) (options : Options)
    (debugOnly : bool) (sched : list nat) (w : World) :
  exists builds,
    trace (final (buildIndex loader options debugOnly sched w))
      = mapperCalls 0 (default [] (templates options)) ++ builds
    /\ Forall (fun e => isLoaderStart e = true)
         (mapperCalls 0 (default [] (templates options)))
    /\ Forall (fun e => isLoaderStart e = false) builds
    /\ loaderStarts (trace (final (buildIndex loader options debugOnly sched w)))
       = length (List.filter needsLoader (default [] (templates options)))
    /\ (length (List.filter needsLoader (default [] (templates options))) = 1 ->
        loaderStarts (trace (final (buildIndex loader options debugOnly sched w))) = 1)
    /\ (forall i,
          LoaderStarted i ∈ trace (final (buildIndex loader options debugOnly sched w))
          <-> exists t, default [] (templates options) !! i = Some t
                        /\ needsLoader t = true).
Proof.
  unfold buildIndex. destruct (templates options) as [ts|] eqn:Hts.
  - change (default [] (Some ts)) with ts. cbn [final].
    destruct (run_trace loader options debugOnly
                (or_else (basePath options) cwd)
                (or_else (appPath options) (or_else (basePath options) cwd))
                sched
                {| world := w; trace := mapperCalls 0 ts; exited := None |})
      as (evs & E & L & _).
    cbn [trace] in E. exists evs. split_and!; try done.
    + apply mapperCalls_loader.
    + rewrite E. unfold loaderStarts.
      rewrite List.filter_app, length_app, (filter_nonloader evs L).
      cbn [length]. rewrite Nat.add_0_r. exact (mapperCalls_count 0 ts).
    + intros <-. rewrite E. unfold loaderStarts.
      rewrite List.filter_app, length_app, (filter_nonloader evs L).
      cbn [length]. rewrite Nat.add_0_r. exact (mapperCalls_count 0 ts).
    + intros i. rewrite E, elem_of_app, mapperCalls_elem, Nat.sub_0_r. split.
      * intros [(t & _ & Ht & Hn)|Hin]; [by exists t|].
        rewrite Forall_forall in L. by specialize (L _ Hin).
      * intros (t & Ht & Hn). left. exists t. split_and!; [lia|done..].
  - exists []. cbn. split_and!; try done.
    intros i. split; [by intros ?%elem_of_nil|]. by intros (t & ? & _).
Qed.

(** C1 as stated fails: a list without an [index] template, such as the
    list of the repository's own test, starts no generation at all. *)
Lemma loader_not_exactly_once :
  loaderStarts
    (trace (final (@buildIndex exampleHost (fun _ => LoaderOk)
                     (Ex.options None [Ex.template "index1" false; Ex.template "index2" false])
                     false [0; 1] (Ex.world [])))) = 0
  /\ 0 <> 1.
Proof. vm_compute. done. Qed.

(** ** Failure of the loader generation *)

Section Rejection.
Context `{Host}.
Variable loader : nat -> LoaderResult.

Lemma mapperPromise_rejected (j : nat) (tj : TemplateOptions) (e : Error) :
  mapperPromise loader j tj = Rejected e ->
  needsLoader tj = true
  /\ exists r, loader j = LoaderFail r
               /\ e = Err (lit "Failed writing debug loader: " ++ r).
Proof.
  unfold mapperPromise. destruct (needsLoader tj); [|done].
  destruct (loader j) as [|r]; [done|]. intros [= <-]. split; [done|]. by exists r.
Qed.

Lemma mapperPromise_failed (i : nat) (t : TemplateOptions) (reason : str) :
  needsLoader t = true -> loader i = LoaderFail reason ->
  mapperPromise loader i t
  = Rejected (Err (lit "Failed writing debug loader: " ++ reason)).
Proof. intros Hn Hl. unfold mapperPromise. by rewrite Hn, Hl. Qed.

Lemma firstRejection_some (ts : list TemplateOptions) (sched : list nat)
    (i : nat) (t : TemplateOptions) (e : Error) :
  ts !! i = Some t -> mapperPromise loader i t = Rejected e -> i ∈ sched ->
  exists j tj e', ts !! j = Some tj /\ mapperPromise loader j tj = Rejected e'
                  /\ firstRejection loader ts sched = Rejected e'.
Proof.
  intros Ht Hp. induction sched as [|k sched IH]; [by intros ?%elem_of_nil|].
  intros Hin. cbn [firstRejection].
  destruct (ts !! k) as [tk|] eqn:Hk.
  - destruct (mapperPromise loader k tk) as [|ek] eqn:Hpk.
    + apply elem_of_cons in Hin as [->|Hin]; [|by apply IH].
      rewrite Ht in Hk. injection Hk as <-. by rewrite Hp in Hpk.
    + by exists k, tk, ek.
  - apply elem_of_cons in Hin as [->|Hin]; [|by apply IH]. by rewrite Ht in Hk.
Qed.

End Rejection.

(** ** A missing template *)

(** C2, at a failing input: template [a] has no template file, template [b]
    has one.  Both builds of [a] throw the missing-template error, both builds
    of [b] run and write their index, and the promise that [buildIndex]
    returned is fulfilled: the error does not reach the caller. *)
Lemma missing_template_not_propagated :
  let run := @buildIndex exampleHost (fun _ => LoaderOk)
               (Ex.options None [Ex.template "a" false; Ex.template "b" false])
               false [0; 1] (Ex.world (Ex.files_for "b" "<p>")) in
  promise run = Fulfilled
  /\ trace (final run)
     = [ DebugBuild 0 (Throw (Err (lit "Missing template file /work/a-template.html")));
         CompiledBuild 0 (Throw (Err (lit "Missing template file /work/a-template.html")));
         DebugBuild 1 (Ret tt);
         CompiledBuild 1 (Ret tt) ]
  /\ exited (final run) = None
  /\ files (world (final run)) !! lit "/work/b.html" = Some (lit "<p>")
  /\ files (world (final run)) !! lit "/work/dist/b.html" = Some (lit "<p>")
  /\ files (world (final run)) !! lit "/work/a.html" = None.
Proof. vm_compute. done. Qed.

(** ** Examples of the string primitives *)

Example split_empty : split_lines [] = [[]].
Proof. reflexivity. Qed.

Example replace_first_only :
  replace (lit "<!--A-->") (lit "x") (lit "a<!--A-->b<!--A-->c") = lit "axb<!--A-->c".
Proof. vm_compute. reflexivity. Qed.

Example replace_all_twice :
  replace_all (lit "@v@") (lit "1") (lit "a@v@b@v@v@") = lit "a1b1v@".
Proof. vm_compute. reflexivity. Qed.

Example replace_dollar :
  replace_all (lit "@v@") (lit "[$&]") (lit "a@v@b") = lit "a[@v@]b".
Proof. vm_compute. reflexivity. Qed.

(** ** The scenario of the repository's test *)

Example test_scenario :
  let run := @buildIndex exampleHost (fun _ => LoaderOk)
               (Ex.options (Some (lit "test-version")) [Ex.template "index1" false])
               false [0] Ex.test_world in
  let debug := files (world (final run)) !! lit "/work/index1.html" in
  let dist := files (world (final run)) !! lit "/work/dist/index1.html" in
  promise run = Fulfilled
  /\ trace (final run) = [DebugBuild 0 (Ret tt); CompiledBuild 0 (Ret tt)]
  /\ Ex.lines_with "<link " debug = 3
  /\ Ex.lines_with "<script src=" debug = 6
  /\ Ex.lines_with "<div id='ng-app' ng-init='version=dev;versionPath='>" debug = 1
  /\ Ex.lines_with "<link " dist = 3
  /\ Ex.lines_with "<script src=" dist = 3
  /\ Ex.lines_with
       "<div id='ng-app' ng-init='version=test-version;versionPath=test-version/'>"
       dist = 1.
Proof. vm_compute. done. Qed.

(** * Further properties *)

(** ** The builders, case by case *)

Section Cases.
Context `{Host}.
Variables (options : Options) (t : TemplateOptions) (base app : str).

(** The index that the debug build writes. *)
Lemma buildDebugIndex_cases (w : World) :
  buildDebugIndex options t base app w
  = if skip t then (Ret tt, w)
    else if negb (exists_in w (templatePath_of t base))
    then (Throw (Err (lit "Missing template file " ++ templatePath_of t base)), w)
    else
      let w1 := logged [Log (lit "Creating debug index from "
                               ++ strip_template_suffix (templatePath_of t base)
                               ++ lit "...")] w in
      match files w !! templatePath_of t base with
      | None => (Throw (ReadError (templatePath_of t base)), w1)
      | Some c =>
          match files w !! debugCssManifest t app with
          | None =>
              (Exit 1,
               after_read_failure (lit "ERROR: failed reading vendor styles from ")
                 (debugCssManifest t app) w1)
          | Some m =>
              let w2 := after_read (length (split_lines m)) (lit " vendor styles from ")
                          (debugCssManifest t app) w1 in
              let finish := fun text =>
                (Ret tt,
                 {| files := <[path_join [base; id t ++ lit ".html"] := text]> (files w);
                    dirs := dirs w;
                    console := console w2
                      ++ [Log (lit "Writing debug index to "
                                 ++ path_join [base; id t ++ lit ".html"]);
                          Log []] |}) in
              if includes VENDOR_JS (debugBeforeJs options c m) then
                match files w !! debugJsManifest t app with
                | None =>
                    (Exit 1,
                     after_read_failure (lit "ERROR: failed reading vendor scripts from ")
                       (debugJsManifest t app) w2)
                | Some j =>
                    finish (debugAppJs base app
                              (replace VENDOR_JS
                                 (join_lines (map createScriptTag (split_lines j)))
                                 (debugBeforeJs options c m)))
                end
              else finish (debugAppJs base app (debugBeforeJs options c m))
          end
      end.
Proof.
  unfold buildDebugIndex. destruct (skip t); [done|]. run_m.
  fold (exists_in w (templatePath_of t base)).
  destruct (exists_in w (templatePath_of t base)); cbn; [|done].
  destruct (files w !! templatePath_of t base) as [c|] eqn:Hc; cbn; [|done].
  unfold mbind, M_bind, bind.
  destruct (files w !! debugCssManifest t app) as [m|] eqn:Hm.
  - rewrite (addVendorCss_present _ _ m) by done.
    unfold debugVendorJs. fold (debugBeforeJs options c m).
    destruct (includes VENDOR_JS (debugBeforeJs options c m)).
    + unfold mbind, M_bind, bind.
      destruct (files w !! debugJsManifest t app) as [j|] eqn:Hj.
      * rewrite (getVendorScripts_present _ j) by done. run_m.
        by rewrite <- !app_assoc.
      * by rewrite getVendorScripts_missing by done.
    + run_m. by rewrite <- !app_assoc.
  - by rewrite addVendorCss_missing by done.
Qed.

(** The index that the compiled build writes. *)
Lemma buildCompiledIndex_cases (w : World) :
  buildCompiledIndex options t base app w
  = if skip t then (Ret tt, w)
    else if negb (exists_in w (templatePath_of t base))
    then (Throw (Err (lit "Missing template file " ++ templatePath_of t base)), w)
    else
      let w1 := logged [Log (lit "Creating compiled index from "
                               ++ strip_template_suffix (templatePath_of t base)
                               ++ lit "...")] w in
      match files w !! templatePath_of t base with
      | None => (Throw (ReadError (templatePath_of t base)), w1)
      | Some c =>
          match files w !! distCss t app with
          | None =>
              (Exit 1,
               after_read_failure (lit "ERROR: failed reading vendor styles from ")
                 (distCss t app) w1)
          | Some m =>
              let w2 := after_read (length (split_lines m)) (lit " vendor styles from ")
                          (distCss t app) w1 in
              match files w !! distJs t app with
              | None =>
                  (Exit 1,
                   after_read_failure (lit "ERROR: failed reading vendor scripts from ")
                     (distJs t app) w2)
              | Some j =>
                  let w3 := after_read (length (split_lines j))
                              (lit " vendor scripts from ") (distJs t app) w2 in
                  (Ret tt,
                   {| files :=
                        <[path_join [distPath options; id t ++ lit ".html"]
                          := addAppScript (compiledJs options)
                               (addAppCss (compiledCss options)
                                  (replace VENDOR_JS
                                     (join_lines (map createScriptTag (split_lines j)))
                                     (replace VENDOR_CSS
                                        (join_lines (map createLinkTag (split_lines m)))
                                        (compiledVersions options c))))]> (files w);
                      dirs := if exists_in w (distPath options) then dirs w
                              else dirs w ∪ {[distPath options]};
                      console := console w3
                        ++ [Log (lit "Writing compiled index to "
                                   ++ path_join [distPath options; id t ++ lit ".html"]);
                            Log []] |})
              end
          end
      end.
Proof.
  unfold buildCompiledIndex. destruct (skip t); [done|]. run_m.
  fold (exists_in w (templatePath_of t base)).
  destruct (exists_in w (templatePath_of t base)); cbn; [|done].
  destruct (files w !! templatePath_of t base) as [c|] eqn:Hc; cbn; [|done].
  unfold mbind, M_bind, bind. fold (distCss t app). fold (distJs t app).
  destruct (files w !! distCss t app) as [m|] eqn:Hm.
  - rewrite (addVendorCss_present _ _ m) by done.
    destruct (files w !! distJs t app) as [j|] eqn:Hj.
    + rewrite (addVendorScripts_present _ _ j) by done. run_m.
      fold (exists_in w (distPath options)).
      destruct (exists_in w (distPath options)); cbn; by rewrite <- !app_assoc.
    + by rewrite addVendorScripts_missing by done.
  - by rewrite addVendorCss_missing by done.
Qed.

End Cases.

(** ** What the builders do to the world *)

Section BuilderEffects.
Context `{Host}.
Variables (options : Options) (t : TemplateOptions) (base app : str).

Lemma exists_in_absent (w : World) (p : str) :
  files w !! p = None -> p ∉ dirs w -> exists_in w p = false.
Proof.
  intros Hp Hd. unfold exists_in. rewrite Hp, (bool_decide_false (p ∈ dirs w)) by done.
  rewrite bool_decide_false; [done|]. by intros [? ?].
Qed.

Lemma debug_frame (w : World) :
  delete (path_join [base; id t ++ lit ".html"])
    (files (buildDebugIndex options t base app w).2)
  = delete (path_join [base; id t ++ lit ".html"]) (files w)
  /\ dirs (buildDebugIndex options t base app w).2 = dirs w
  /\ exists l, console (buildDebugIndex options t base app w).2 = console w ++ l.
Proof.
  rewrite buildDebugIndex_cases.
  assert (exists l, console w = console w ++ l) as Hl0
    by (exists []; by rewrite app_nil_r).
  destruct (skip t); [by split_and!|].
  destruct (exists_in w (templatePath_of t base)); cbn [negb]; [|by split_and!].
  destruct (files w !! templatePath_of t base) as [c|]; [|cbn; split_and!; by eauto].
  destruct (files w !! debugCssManifest t app);
    [|cbn; split_and!; try done; eexists; by rewrite <- !app_assoc].
  cbv zeta. destruct (includes VENDOR_JS _).
  - destruct (files w !! debugJsManifest t app); cbn.
    + split_and!; [by rewrite delete_insert_eq|done|].
      eexists. by rewrite <- !app_assoc.
    + split_and!; try done. eexists. by rewrite <- !app_assoc.
  - cbn. split_and!; [by rewrite delete_insert_eq|done|].
    eexists. by rewrite <- !app_assoc.
Qed.

End BuilderEffects.

(** X1.  When the template file is neither a file nor a directory of the
    world, and the template is not skipped, both builders throw
    [Missing template file <path>] before anything is logged or written. *)
Theorem missing_template_throws `{Host} (options : Options) (t : TemplateOptions)
    (base app : str) (w : World) :
  skip t = false ->
  files w !! templatePath_of t base = None ->
  templatePath_of t base ∉ dirs w ->
  buildDebugIndex options t base app w
    = (Throw (Err (lit "Missing template file " ++ templatePath_of t base)), w)
  /\ buildCompiledIndex options t base app w
    = (Throw (Err (lit "Missing template file " ++ templatePath_of t base)), w).
Proof.
  intros Hs Hf Hd.
  rewrite buildDebugIndex_cases, buildCompiledIndex_cases, Hs.
  by rewrite (exists_in_absent _ _ Hf Hd).
Qed.

Lemma missing_template_throws_witness :
  @buildCompiledIndex exampleHost (Ex.options None []) (Ex.template "a" false)
    (lit "/work") (lit "/work") (Ex.world [])
  = (Throw (Err (lit "Missing template file "
                   ++ @templatePath_of exampleHost (Ex.template "a" false) (lit "/work"))),
     Ex.world []).
Proof.
  refine (proj2 (@missing_template_throws exampleHost (Ex.options None [])
                   (Ex.template "a" false) (lit "/work") (lit "/work") (Ex.world [])
                   eq_refl eq_refl _)).
  apply not_elem_of_empty.
Defined.

(** ** Markers that are absent, options that are unset *)

(** X7.  An app stylesheet or app script option that is unset or empty puts
    no tag in: the first occurrence of the marker is taken out and nothing
    else changes. *)
Theorem unset_option_strips `{Host} (p : option str) (t : str) :
  or_else p [] = [] ->
  addAppCss p t = subst_first APP_CSS [] t
  /\ addAppScript p t = subst_first APP_JS [] t.
Proof.
  intros Hp. unfold addAppCss, addAppScript.
  assert (tag_of createLinkTag p = [] /\ tag_of createScriptTag p = []) as [-> ->].
  { destruct p as [[|c p]|]; try done. }
  split; apply replace_subst_first, plain_nil.
Qed.

Lemma unset_option_strips_witness :
  @addAppCss exampleHost None (lit "a<!--APP_CSS-->b")
  = subst_first APP_CSS [] (lit "a<!--APP_CSS-->b").
Proof.
  refine (proj1 (@unset_option_strips exampleHost None (lit "a<!--APP_CSS-->b") _)).
  reflexivity.
Defined.

(** X8.  A helper whose marker is not in the template returns the template
    as it is; the vendor helpers do so after reading their manifest all the
    same. *)
Theorem absent_marker_unchanged `{Host} (t : str) :
  (includes APP_CSS t = false -> forall p, addAppCss p t = t)
  /\ (includes APP_JS t = false -> forall p, addAppScript p t = t)
  /\ (includes VENDOR_CSS t = false -> forall f c w, files w !! f = Some c ->
        (addVendorCss t f w).1 = Ret t)
  /\ (includes VENDOR_JS t = false -> forall f c w, files w !! f = Some c ->
        (addVendorScripts t f w).1 = Ret t).
Proof.
  split_and!.
  - intros Hi p. by apply replace_absent.
  - intros Hi p. by apply replace_absent.
  - intros Hi f c w Hf. rewrite (addVendorCss_present _ _ _ _ Hf). cbn.
    f_equal. by apply replace_absent.
  - intros Hi f c w Hf. rewrite (addVendorScripts_present _ _ _ _ Hf). cbn.
    f_equal. by apply replace_absent.
Qed.

Lemma absent_marker_unchanged_witness :
  @addAppScript exampleHost (Some (lit "app.js")) (lit "<p>") = lit "<p>".
Proof.
  refine (proj1 (proj2 (@absent_marker_unchanged exampleHost (lit "<p>"))) _ _).
  reflexivity.
Defined.

(** ** The count that is logged *)

Lemma split_lines_length (c : str) :
  length (split_lines c) = S (length (List.filter (fun x => bool_decide (x = newline)) c)).
Proof.
  induction c as [|a c IH]; [done|]. cbn [split_lines List.filter].
  destruct (decide (a = newline)) as [->|Ha].
  - rewrite bool_decide_true by done. cbn [length]. by rewrite IH.
  - rewrite bool_decide_false by done.
    destruct (split_lines c) as [|l ls]; [done|]. by rewrite <- IH.
Qed.

(** X9.  The number of vendor entries that the helpers log is the number of
    line breaks of the manifest plus one: empty lines count, and an empty
    manifest is logged as one entry. *)
Theorem logged_vendor_count `{Host} (t f c : str) (w : World) :
  files w !! f = Some c ->
  console (addVendorCss t f w).2
    = console w
      ++ [Log (lit "Adding "
                 ++ of_nat (S (length (List.filter (fun x => bool_decide (x = newline)) c)))
                 ++ lit " vendor styles from " ++ f)]
  /\ console (addVendorScripts t f w).2
    = console w
      ++ [Log (lit "Adding "
                 ++ of_nat (S (length (List.filter (fun x => bool_decide (x = newline)) c)))
                 ++ lit " vendor scripts from " ++ f)].
Proof.
  intros Hf. rewrite (addVendorCss_present _ _ _ _ Hf), (addVendorScripts_present _ _ _ _ Hf).
  cbn. by rewrite split_lines_length.
Qed.

Lemma logged_vendor_count_witness :
  console (@addVendorCss exampleHost (lit "<p>") (lit "/m") (Ex.world [(lit "/m", [])])).2
  = [Log (lit "Adding " ++ of_nat 1 ++ lit " vendor styles from " ++ lit "/m")].
Proof.
  refine (proj1 (@logged_vendor_count exampleHost (lit "<p>") (lit "/m") []
                   (Ex.world [(lit "/m", [])]) _)).
  reflexivity.
Defined.

(** ** Runs, step by step *)

Section Steps.
Context `{Host}.
Variables (loader : nat -> LoaderResult) (options : Options) (debugOnly : bool)
  (base app : str).

(** The three ways in which the callbacks of one template go. *)
Lemma callbacks_shape (i : nat) (st : State) :
  callbacks loader options debugOnly base app i st = st
  \/ exists t,
       default [] (templates options) !! i = Some t
       /\ exited st = None
       /\ mapperPromise loader i t = Fulfilled
       /\ ((callbacks loader options debugOnly base app i st
            = {| world := (buildDebugIndex options t base app (world st)).2;
                 trace := trace st
                   ++ [DebugBuild i (buildDebugIndex options t base app (world st)).1];
                 exited := exit_of (buildDebugIndex options t base app (world st)).1 |}
            /\ (exit_of (buildDebugIndex options t base app (world st)).1 <> None
                \/ debugOnly = true))
           \/ (callbacks loader options debugOnly base app i st
               = {| world :=
                      (buildCompiledIndex options t base app
                         (buildDebugIndex options t base app (world st)).2).2;
                    trace := trace st
                      ++ [DebugBuild i (buildDebugIndex options t base app (world st)).1;
                          CompiledBuild i
                            (buildCompiledIndex options t base app
                               (buildDebugIndex options t base app (world st)).2).1];
                    exited :=
                      exit_of (buildCompiledIndex options t base app
                                 (buildDebugIndex options t base app (world st)).2).1 |}
               /\ exit_of (buildDebugIndex options t base app (world st)).1 = None
               /\ debugOnly = false)).
Proof.
  unfold callbacks.
  destruct (exited st) as [c|] eqn:He; [by left|].
  destruct (default [] (templates options) !! i) as [t|] eqn:Ht; [|by left].
  destruct (mapperPromise loader i t) as [|e] eqn:Hp; [|by left].
  right. exists t. split_and!; try done.
  destruct (buildDebugIndex options t base app (world st)) as [o w] eqn:Hd.
  cbn [exited record fst snd world trace].
  destruct (exit_of o) as [c|] eqn:Hx.
  { left. split; [done|]. by left. }
  destruct debugOnly.
  { left. split; [done|]. by right. }
  right. destruct (buildCompiledIndex options t base app w) as [o' w'] eqn:Hc.
  cbn [exited record fst snd world trace]. split_and!; try done.
  unfold record. cbn [trace]. by rewrite <- app_assoc.
Qed.

Lemma run_invariant (P : State -> Prop) (sched : list nat) (st : State) :
  (forall i st, P st -> P (callbacks loader options debugOnly base app i st)) ->
  P st ->
  P (foldl (fun st i => callbacks loader options debugOnly base app i st) st sched).
Proof.
  intros Hstep. revert st. induction sched as [|i sched IH]; intros st Hst; [done|].
  cbn [foldl]. by apply IH, Hstep.
Qed.

End Steps.

Lemma mapperCalls_none (k : nat) (ts : list TemplateOptions) :
  Forall (fun t => needsLoader t = false) ts -> mapperCalls k ts = [].
Proof.
  intros Hts. revert k. induction Hts as [|t ts Ht _ IH]; intros k; [done|].
  cbn [mapperCalls]. by rewrite Ht, IH.
Qed.

Lemma firstRejection_none (loader : nat -> LoaderResult) (ts : list TemplateOptions)
    (sched : list nat) :
  Forall (fun t => needsLoader t = false) ts ->
  firstRejection loader ts sched = Fulfilled.
Proof.
  intros Hts. induction sched as [|i sched IH]; [done|]. cbn [firstRejection].
  destruct (ts !! i) as [t|] eqn:Ht; [|done].
  rewrite Forall_forall in Hts. unfold mapperPromise.
  by rewrite (Hts t) by by eapply list_elem_of_lookup_2.
Qed.

(** X10.  When every template of the list has its skip flag set, a run
    changes nothing: no loader generation is started, the promise is
    fulfilled, the process does not exit, and the world at the end is the world
    at the start in every order of the templates. *)
Theorem all_skipped_no_effect `{Host} (loader : nat -> LoaderResult) (options : Options)
    (debugOnly : bool) (sched : list nat) (w : World) :
  Forall (fun t => skip t = true) (default [] (templates options)) ->
  promise (buildIndex loader options debugOnly sched w) = Fulfilled
  /\ world (final (buildIndex loader options debugOnly sched w)) = w
  /\ exited (final (buildIndex loader options debugOnly sched w)) = None
  /\ Forall (fun e => isLoaderStart e = false)
       (trace (final (buildIndex loader options debugOnly sched w))).
Proof.
  intros Hskip.
  assert (Forall (fun t => needsLoader t = false) (default [] (templates options)))
    as Hnl.
  { eapply Forall_impl; [exact Hskip|]. intros t Ht. unfold needsLoader.
    rewrite Ht. apply andb_false_r. }
  unfold buildIndex. destruct (templates options) as [ts|] eqn:Hts;
    [|by split_and!].
  change (default [] (Some ts)) with ts in *. cbn [promise final].
  split; [by apply firstRejection_none|].
  rewrite (mapperCalls_none 0 ts Hnl).
  apply (run_invariant loader options debugOnly _ _
           (fun st => world st = w /\ exited st = None
                      /\ Forall (fun e => isLoaderStart e = false) (trace st)));
    [|by split_and!].
  intros i st (Hw & He & Htr).
  destruct (callbacks_shape loader options debugOnly
              (or_else (basePath options) cwd)
              (or_else (appPath options) (or_else (basePath options) cwd)) i st)
    as [->|(t & Ht & _ & _ & Hshape)]; [done|].
  rewrite Hts in Ht. change (default [] (Some ts)) with ts in Ht.
  assert (skip t = true) as Hs.
  { rewrite Forall_forall in Hskip. apply Hskip. by eapply list_elem_of_lookup_2. }
  assert (forall w0, buildDebugIndex options t (or_else (basePath options) cwd)
                       (or_else (appPath options) (or_else (basePath options) cwd)) w0
                     = (Ret tt, w0)) as Hd
    by (intros w0; unfold buildDebugIndex; by rewrite Hs).
  assert (forall w0, buildCompiledIndex options t (or_else (basePath options) cwd)
                       (or_else (appPath options) (or_else (basePath options) cwd)) w0
                     = (Ret tt, w0)) as Hc
    by (intros w0; unfold buildCompiledIndex; by rewrite Hs).
  destruct Hshape as [[-> _]|(-> & _ & _)]; rewrite ?Hd, ?Hc; cbn;
    split_and!; try done; apply Forall_app; split; try done; repeat constructor.
Qed.

Lemma all_skipped_no_effect_witness :
  world (final (@buildIndex exampleHost (fun _ => LoaderFail (lit "boom"))
                  (Ex.options None [Ex.template "index" true; Ex.template "a" true])
                  false [1; 0] (Ex.world_a "<p>")))
  = Ex.world_a "<p>".
Proof.
  refine (proj1 (proj2 (@all_skipped_no_effect exampleHost
                          (fun _ => LoaderFail (lit "boom"))
                          (Ex.options None [Ex.template "index" true; Ex.template "a" true])
                          false [1; 0] (Ex.world_a "<p>") _))).
  repeat constructor.
Defined.

(** ** Debug-only runs, and the order of the builds *)

Lemma mapperCalls_not_compiled (k : nat) (ts : list TemplateOptions) :
  Forall (fun e => isCompiledBuild e = false) (mapperCalls k ts).
Proof.
  eapply Forall_impl; [apply mapperCalls_loader|]. by intros [].
Qed.

(** X11.  A debug-only run runs no compiled build and makes no directory,
    in every order of the templates. *)
Theorem debug_only_run `{Host} (loader : nat -> LoaderResult) (options : Options)
    (sched : list nat) (w : World) :
  Forall (fun e => isCompiledBuild e = false)
    (trace (final (buildIndex loader options true sched w)))
  /\ dirs (world (final (buildIndex loader options true sched w))) = dirs w.
Proof.
  unfold buildIndex. destruct (templates options) as [ts|] eqn:Hts; [|by split].
  cbn [final].
  apply (run_invariant loader options true _ _
           (fun st => Forall (fun e => isCompiledBuild e = false) (trace st)
                      /\ dirs (world st) = dirs w));
    [|split; [apply mapperCalls_not_compiled|done]].
  intros i st [Htr Hd].
  destruct (callbacks_shape loader options true
              (or_else (basePath options) cwd)
              (or_else (appPath options) (or_else (basePath options) cwd)) i st)
    as [->|(t & _ & _ & _ & [[-> _]|(_ & _ & ?)])]; [done| |done].
  cbn [trace world]. split.
  - apply Forall_app. split; [done|]. by repeat constructor.
  - destruct (debug_frame options t (or_else (basePath options) cwd)
                (or_else (appPath options) (or_else (basePath options) cwd)) (world st))
      as (_ & -> & _). done.
Qed.

Lemma follows_app_debug (p : option nat) (tr rest : list Event) (i : nat)
    (o : Outcome unit) :
  compiled_follows_debug p (tr ++ DebugBuild i o :: rest)
  = compiled_follows_debug p tr && compiled_follows_debug (Some i) rest.
Proof.
  revert p; induction tr as [|e tr IH]; intros p; [done|].
  destruct e as [j|j o'|j o']; cbn [app compiled_follows_debug]; rewrite ?IH; try done.
  by rewrite andb_assoc.
Qed.

Lemma follows_mapperCalls (k : nat) (ts : list TemplateOptions) (p : option nat) :
  compiled_follows_debug p (mapperCalls k ts) = true.
Proof.
  revert k p; induction ts as [|t ts IH]; intros k p; [done|].
  cbn [mapperCalls]. destruct (needsLoader t); cbn; apply IH.
Qed.

(** X12.  In the trace of a run, every compiled build comes right after the
    debug build of the same template: within a template the debug build goes
    first, and nothing of another template comes between the two. *)
Theorem compiled_build_follows_debug `{Host} (loader : nat -> LoaderResult)
    (options : Options) (debugOnly : bool) (sched : list nat) (w : World) :
  compiled_follows_debug None
    (trace (final (buildIndex loader options debugOnly sched w))) = true.
Proof.
  unfold buildIndex. destruct (templates options) as [ts|] eqn:Hts; [|done].
  cbn [final].
  apply (run_invariant loader options debugOnly _ _
           (fun st => compiled_follows_debug None (trace st) = true));
    [|apply follows_mapperCalls].
  intros i st Htr.
  destruct (callbacks_shape loader options debugOnly
              (or_else (basePath options) cwd)
              (or_else (appPath options) (or_else (basePath options) cwd)) i st)
    as [->|(t & _ & _ & _ & [[-> _]|(-> & _ & _)])]; [done|..];
    cbn [trace]; rewrite follows_app_debug, Htr; cbn; [done|].
  by rewrite bool_decide_true.
Qed.

(** ** A run that exits *)

Section ExitStatus.
Context `{Host}.
Variables (options : Options) (t : TemplateOptions) (base app : str).

Lemma debug_exit_status (w : World) (c : nat) :
  exit_of (buildDebugIndex options t base app w).1 = Some c -> c = 1.
Proof.
  rewrite buildDebugIndex_cases. repeat case_match; cbn; congruence.
Qed.

Lemma compiled_exit_status (w : World) (c : nat) :
  exit_of (buildCompiledIndex options t base app w).1 = Some c -> c = 1.
Proof.
  rewrite buildCompiledIndex_cases. repeat case_match; cbn; congruence.
Qed.

Lemma exit_of_Some (o : Outcome unit) (c : nat) : exit_of o = Some c -> o = Exit c.
Proof. destruct o; cbn; congruence. Qed.

End ExitStatus.

(** X13.  A run exits with status 1 or not at all; when it exits, the build
    that called [process.exit] is the last event of the trace: nothing runs
    after it. *)
Theorem run_exit_status `{Host} (loader : nat -> LoaderResult) (options : Options)
    (debugOnly : bool) (sched : list nat) (w : World) :
  match exited (final (buildIndex loader options debugOnly sched w)) with
  | None => True
  | Some c =>
      c = 1
      /\ exists tr i,
           trace (final (buildIndex loader options debugOnly sched w))
             = tr ++ [DebugBuild i (Exit 1)]
           \/ trace (final (buildIndex loader options debugOnly sched w))
             = tr ++ [CompiledBuild i (Exit 1)]
  end.
Proof.
  unfold buildIndex. destruct (templates options) as [ts|] eqn:Hts; [|done].
  cbn [final].
  apply (run_invariant loader options debugOnly _ _
           (fun st => match exited st with
                      | None => True
                      | Some c =>
                          c = 1 /\ exists tr i,
                            trace st = tr ++ [DebugBuild i (Exit 1)]
                            \/ trace st = tr ++ [CompiledBuild i (Exit 1)]
                      end)); [|done].
  intros i st Hst.
  destruct (callbacks_shape loader options debugOnly
              (or_else (basePath options) cwd)
              (or_else (appPath options) (or_else (basePath options) cwd)) i st)
    as [->|(t & _ & _ & _ & [[-> _]|(-> & _ & _)])]; [done|..]; cbn [exited trace].
  - destruct (exit_of _) as [c|] eqn:Hx; [|done].
    pose proof (debug_exit_status _ _ _ _ _ _ Hx) as ->.
    split; [done|]. eexists _, i. left. by rewrite (exit_of_Some _ _ Hx).
  - destruct (exit_of (buildCompiledIndex _ _ _ _ _).1) as [c|] eqn:Hx; [|done].
    pose proof (compiled_exit_status _ _ _ _ _ _ Hx) as ->.
    split; [done|]. eexists (_ ++ [_]), i. right.
    rewrite (exit_of_Some _ _ Hx). by rewrite <- app_assoc.
Qed.

(** ** Every template gets its builds *)

Section Progress.
Context `{Host}.
Variables (loader : nat -> LoaderResult) (options : Options) (debugOnly : bool)
  (base app : str).

Lemma callbacks_runs (i : nat) (st : State) (t : TemplateOptions) :
  exited st = None ->
  default [] (templates options) !! i = Some t ->
  mapperPromise loader i t = Fulfilled ->
  exists o,
    DebugBuild i o ∈ trace (callbacks loader options debugOnly base app i st)
    /\ (debugOnly = false ->
        exited (callbacks loader options debugOnly base app i st) = None ->
        exists o', CompiledBuild i o'
                     ∈ trace (callbacks loader options debugOnly base app i st)).
Proof.
  intros He Ht Hp. unfold callbacks. rewrite He, Ht, Hp.
  destruct (buildDebugIndex options t base app (world st)) as [o w'].
  cbn [exited record world trace]. destruct (exit_of o) as [c|] eqn:Hx.
  { exists o. cbn. split; [apply elem_of_app; right; constructor|].
    intros _ Hnone. congruence. }
  destruct debugOnly.
  { exists o. cbn. split; [apply elem_of_app; right; constructor|]. by intros ?. }
  destruct (buildCompiledIndex options t base app w') as [o' w''].
  exists o. unfold record. cbn. split.
  - apply elem_of_app. left. apply elem_of_app. right. constructor.
  - intros _ _. exists o'. apply elem_of_app. right. constructor.
Qed.

Lemma run_keeps_trace (sched : list nat) (st : State) (e : Event) :
  e ∈ trace st ->
  e ∈ trace (foldl (fun st i => callbacks loader options debugOnly base app i st)
               st sched).
Proof.
  intros He.
  destruct (run_trace loader options debugOnly base app sched st) as (evs & -> & _).
  apply elem_of_app. by left.
Qed.

Lemma run_not_exited (sched : list nat) (st : State) :
  exited (foldl (fun st i => callbacks loader options debugOnly base app i st)
            st sched) = None ->
  exited st = None.
Proof.
  destruct (exited st) as [c|] eqn:He; [|done].
  by rewrite (run_exited loader options debugOnly base app sched st c He), He.
Qed.

Lemma run_builds (sched : list nat) (st : State) (i : nat) (t : TemplateOptions) :
  exited (foldl (fun st i => callbacks loader options debugOnly base app i st)
            st sched) = None ->
  i ∈ sched ->
  default [] (templates options) !! i = Some t ->
  mapperPromise loader i t = Fulfilled ->
  (exists o, DebugBuild i o
               ∈ trace (foldl (fun st i =>
                                 callbacks loader options debugOnly base app i st)
                          st sched))
  /\ (debugOnly = false ->
      exists o, CompiledBuild i o
                  ∈ trace (foldl (fun st i =>
                                    callbacks loader options debugOnly base app i st)
                             st sched)).
Proof.
  intros Hx Hin Ht Hp. revert st Hx.
  induction sched as [|j sched IH]; intros st Hx; [by apply elem_of_nil in Hin|].
  cbn [foldl] in *.
  apply elem_of_cons in Hin as [->|Hin]; [|by apply IH].
  pose proof (run_not_exited _ _ Hx) as Hx1.
  pose proof (run_not_exited [j] st Hx1) as Hx0.
  destruct (callbacks_runs j st t Hx0 Ht Hp) as (o & Ho & Hc).
  split.
  - exists o. by apply run_keeps_trace.
  - intros Hd. destruct (Hc Hd Hx1) as (o' & Ho'). exists o'. by apply run_keeps_trace.
Qed.

End Progress.

(** X14.  In a run that does not exit, every template whose promise is
    fulfilled gets its debug build, and its compiled build too unless the run
    is debug-only, whatever happens to the other templates: a build that
    throws stops nothing. *)
Theorem every_template_built `{Host} (loader : nat -> LoaderResult) (options : Options)
    (debugOnly : bool) (sched : list nat) (w : World) (i : nat) (t : TemplateOptions) :
  exited (final (buildIndex loader options debugOnly sched w)) = None ->
  i ∈ sched ->
  default [] (templates options) !! i = Some t ->
  mapperPromise loader i t = Fulfilled ->
  (exists o, DebugBuild i o ∈ trace (final (buildIndex loader options debugOnly sched w)))
  /\ (debugOnly = false ->
      exists o, CompiledBuild i o
                  ∈ trace (final (buildIndex loader options debugOnly sched w))).
Proof.
  unfold buildIndex. destruct (templates options) as [ts|] eqn:Hts; [|done].
  cbn [final]. intros Hx Hin Ht Hp. apply (run_builds _ _ _ _ _ _ _ _ t); try done.
  by rewrite Hts.
Qed.

Lemma every_template_built_witness :
  exists o, DebugBuild 1 o
              ∈ trace (final (@buildIndex exampleHost (fun _ => LoaderOk)
                                (Ex.options None [Ex.template "a" false; Ex.template "b" false])
                                false [0; 1] (Ex.world (Ex.files_for "b" "<p>")))).
Proof.
  refine (proj1 (@every_template_built exampleHost (fun _ => LoaderOk)
                   (Ex.options None [Ex.template "a" false; Ex.template "b" false])
                   false [0; 1] (Ex.world (Ex.files_for "b" "<p>")) 1
                   (Ex.template "b" false) _ _ eq_refl eq_refl)).
  - vm_compute. reflexivity.
  - do 2 constructor.
Defined.

(** ** Failure of the loader generation: what the run does *)

(** C3 (as amended).  When the promise of the loader generation started for
    an [index] template that is not skipped is rejected, and the process does
    not exit: the promise returned by [buildIndex] is rejected with an error
    whose message is [Failed writing debug loader: ] followed by the reason of
    a rejected generation (the reason of this one when it is the only such
    template), and no debug or compiled build of that template is run.  The
    run is not aborted: every other template of the order that starts no loader,
    or whose loader succeeds, still gets its debug build, and its compiled build
    unless the run is debug-only. *)
Theorem loader_failure_rejects `{Host} (loader : nat -> LoaderResult)
    (options : Options) (debugOnly : bool) (sched : list nat) (w : World)
    (i : nat) (t : TemplateOptions) (reason : str) :
  default [] (templates options) !! i = Some t ->
  needsLoader t = true ->
  loader i = LoaderFail reason ->
  i ∈ sched ->
  exited (final (buildIndex loader options debugOnly sched w)) = None ->
  (exists j tj r,
      default [] (templates options) !! j = Some tj
      /\ needsLoader tj = true
      /\ loader j = LoaderFail r
      /\ promise (buildIndex loader options debugOnly sched w)
         = Rejected (Err (lit "Failed writing debug loader: " ++ r)))
  /\ ((forall j tj, default [] (templates options) !! j = Some tj ->
         needsLoader tj = true -> j = i) ->
      promise (buildIndex loader options debugOnly sched w)
      = Rejected (Err (lit "Failed writing debug loader: " ++ reason)))
  /\ Forall (fun e => isBuildOf i e = false)
       (trace (final (buildIndex loader options debugOnly sched w)))
  /\ (forall k tk,
        k ∈ sched ->
        default [] (templates options) !! k = Some tk ->
        needsLoader tk = false \/ loader k = LoaderOk ->
        (exists o, DebugBuild k o
                     ∈ trace (final (buildIndex loader options debugOnly sched w)))
        /\ (debugOnly = false ->
            exists o, CompiledBuild k o
                        ∈ trace (final (buildIndex loader options debugOnly sched w)))).
Proof.
  intros Ht Hn Hl Hin Hx.
  pose proof (mapperPromise_failed loader i t reason Hn Hl) as Hp.
  unfold buildIndex in *. destruct (templates options) as [ts|] eqn:Hts; [|done].
  change (default [] (Some ts)) with ts in *. cbn [promise final] in *.
  destruct (firstRejection_some loader ts sched i t _ Ht Hp Hin)
    as (j & tj & e' & Hj & Hpj & Hfirst).
  destruct (mapperPromise_rejected loader j tj e' Hpj) as (Hnj & r & Hr & ->).
  split_and!.
  - by exists j, tj, r.
  - intros Huniq. rewrite Hfirst. specialize (Huniq j tj Hj Hnj). subst j.
    rewrite Hl in Hr. by injection Hr as ->.
  - destruct (run_trace loader options debugOnly
                (or_else (basePath options) cwd)
                (or_else (appPath options) (or_else (basePath options) cwd))
                sched
                {| world := w; trace := mapperCalls 0 ts; exited := None |})
      as (evs & E & _ & B).
    rewrite E. cbn [trace]. apply Forall_app. split.
    + eapply Forall_impl; [apply mapperCalls_loader|]. by intros [].
    + eapply B; [|exact Hp]. by rewrite Hts.
  - intros k tk Hk Htk Hok.
    apply (run_builds loader options debugOnly _ _ sched _ k tk); try done.
    + by rewrite Hts.
    + unfold mapperPromise. destruct Hok as [-> | ->]; [done|].
      by destruct (needsLoader tk).
Qed.

Lemma loader_failure_rejects_witness :
  promise (@buildIndex exampleHost
             (fun i => match i with 0 => LoaderFail (lit "boom") | _ => LoaderOk end)
             (Ex.options None [Ex.template "index" false; Ex.template "b" false])
             false [0; 1] (Ex.world (Ex.files_for "b" "<p>")))
  = Rejected (Err (lit "Failed writing debug loader: " ++ lit "boom")).
Proof.
  refine (proj1 (proj2
            (@loader_failure_rejects exampleHost
               (fun i => match i with 0 => LoaderFail (lit "boom") | _ => LoaderOk end)
               (Ex.options None [Ex.template "index" false; Ex.template "b" false])
               false [0; 1] (Ex.world (Ex.files_for "b" "<p>")) 0
               (Ex.template "index" false) (lit "boom") eq_refl eq_refl eq_refl _ _)) _).
  - constructor.
  - vm_compute. reflexivity.
  - intros [|[|j]] tj Hj Hnl; [reflexivity| |discriminate Hj].
    injection Hj as <-. discriminate Hnl.
Defined.

(** C3 as stated fails: the failure does not abort the run.  With the
    loader of template [index] failing first, template [b] is still built in
    both modes afterwards and its two index files are written. *)
Lemma loader_failure_does_not_abort :
  let run := @buildIndex exampleHost
               (fun i => match i with 0 => LoaderFail (lit "boom") | _ => LoaderOk end)
               (Ex.options None [Ex.template "index" false; Ex.template "b" false])
               false [0; 1] (Ex.world (Ex.files_for "b" "<p>")) in
  promise run = Rejected (Err (lit "Failed writing debug loader: boom"))
  /\ trace (final run)
     = [LoaderStarted 0; DebugBuild 1 (Ret tt); CompiledBuild 1 (Ret tt)]
  /\ exited (final run) = None
  /\ files (world (final run)) !! lit "/work/b.html" = Some (lit "<p>")
  /\ files (world (final run)) !! lit "/work/dist/b.html" = Some (lit "<p>").
Proof. vm_compute. done. Qed.

(** ** Options from a file *)

(** X16.  [buildIndexFromFile] lets no error out: when loading the options
    throws, it logs the file and two error entries and exits with status 1,
    with the files and directories as they were and nothing built; when the
    module is falsy it builds nothing and returns; otherwise it is
    [buildIndex] on the loaded options, after one line on the console. *)
Theorem from_file_outcomes `{Host} (loader : nat -> LoaderResult)
    (require : str -> Error + option Options) (file : str) (debugOnly : bool)
    (sched : list nat) (w : World) :
  match buildIndexFromFile loader require file debugOnly sched w with
  | LoadThrew _ _ => False
  | LoadFailed code w' =>
      code = 1 /\ files w' = files w /\ dirs w' = dirs w
      /\ exists e, require file = inl e
           /\ console w'
              = console w
                ++ [Log (lit "Loading index options from " ++ file);
                    LogError (lit "ERROR: failed loading index file " ++ file);
                    LogErrorObj e]
  | Loaded r =>
      (require file = inr None
       /\ r = {| promise := Fulfilled;
                 final := {| world := logged [Log (lit "Loading index options from "
                                                    ++ file)] w;
                             trace := []; exited := None |} |})
      \/ exists index,
           require file = inr (Some index)
           /\ r = buildIndex loader index debugOnly sched
                    (logged [Log (lit "Loading index options from " ++ file)] w)
  end.
Proof.
  unfold buildIndexFromFile, loadIndex, requireSync. run_m.
  destruct (require file) as [e|[index|]]; cbn.
  - split_and!; try done. exists e. split; [done|]. by rewrite <- !app_assoc.
  - right. by exists index.
  - by left.
Qed.

(** ** The options a builder uses *)

(** X18.  The debug build uses one option only, the debug stylesheet: with
    the same [debugCss] it does the same whatever the versions, the compiled
    artifacts and the other options are.  The compiled build does not use
    [debugCss], [basePath], [appPath] or [templates]. *)
Theorem builders_use_options `{Host} (options options' : Options) (t : TemplateOptions)
    (base app : str) (w : World) :
  (debugCss options' = debugCss options ->
   buildDebugIndex options' t base app w = buildDebugIndex options t base app w)
  /\ (distPath options' = distPath options ->
      appVersion options' = appVersion options ->
      packageVersion options' = packageVersion options ->
      overrideVersion options' = overrideVersion options ->
      compiledCss options' = compiledCss options ->
      compiledJs options' = compiledJs options ->
      buildCompiledIndex options' t base app w = buildCompiledIndex options t base app w).
Proof.
  split.
  - intros Hd. unfold buildDebugIndex. by rewrite Hd.
  - intros Hp Hv Hpv Hov Hc Hj. unfold buildCompiledIndex, compiledVersions,
      compiledVersion, compiledPackageVersion, compiledVersionPath, compiledVersion.
    by rewrite Hp, Hv, Hpv, Hov, Hc, Hj.
Qed.

Lemma builders_use_options_witness :
  @buildDebugIndex exampleHost (Ex.options (Some (lit "v2")) []) (Ex.template "a" false)
    (lit "/work") (lit "/work") (Ex.world_a "<p>@appVersion@</p>")
  = @buildDebugIndex exampleHost (Ex.options None []) (Ex.template "a" false)
      (lit "/work") (lit "/work") (Ex.world_a "<p>@appVersion@</p>").
Proof.
  refine (proj1 (@builders_use_options exampleHost (Ex.options None [])
                   (Ex.options (Some (lit "v2")) []) (Ex.template "a" false)
                   (lit "/work") (lit "/work") (Ex.world_a "<p>@appVersion@</p>")) _).
  reflexivity.
Defined.
